(** * YOLOv8 detection API: the request pipeline of [src/api/main.py]

    A shallow embedding of the FastAPI handlers [health_check] and
    [detect_objects], and the properties of the detection request
    pipeline stated over it. *)

From Stdlib Require Import ZArith Lia List String Ascii Bool.
From Stdlib Require Import Floats.SpecFloat.
From stdpp Require Import base gmap strings list fin_maps pretty.

Open Scope Z_scope.

(** ** Python floats

    A Python [float] is an IEEE 754 binary64 number.  The Standard
    Library's [spec_float] gives its values; a [pyfloat] carries the
    proof that the mantissa and exponent are those of a binary64. *)

Module PyFloat.

Definition prec : Z := 53.
Definition emax : Z := 1024.

Record pyfloat : Type := MkFloat {
  sf : spec_float;
  sf_valid : valid_binary prec emax sf = true
}.

(** The literals of the handler. *)
Definition f_0_0 : pyfloat := MkFloat (S754_zero false) eq_refl.
Definition f_1_0 : pyfloat := MkFloat (S754_finite false 4503599627370496 (-52)) eq_refl.
Definition f_0_25 : pyfloat := MkFloat (S754_finite false 4503599627370496 (-54)) eq_refl.
Definition f_0_5 : pyfloat := MkFloat (S754_finite false 4503599627370496 (-53)) eq_refl.
Definition f_2_0 : pyfloat := MkFloat (S754_finite false 4503599627370496 (-51)) eq_refl.
Definition f_nan : pyfloat := MkFloat S754_nan eq_refl.

(** [x <= y] on floats: false as soon as one side is NaN. *)
Definition py_le (x y : pyfloat) : bool := SFleb (sf x) (sf y).

(** The magnitude of [int(x)] for a finite [x = m * 2^e]: shifting left
    by a negative amount shifts right, which drops the fraction. *)
Definition trunc_mag (m : positive) (e : Z) : Z := Z.shiftl (Zpos m) e.

Definition trunc_sf (x : spec_float) : option Z :=
  match x with
  | S754_zero _ => Some 0
  | S754_finite s m e => Some (if s then - trunc_mag m e else trunc_mag m e)
  | S754_infinity _ | S754_nan => None
  end.

Definition is_finite (x : pyfloat) : bool :=
  match sf x with
  | S754_zero _ | S754_finite _ _ _ => true
  | S754_infinity _ | S754_nan => false
  end.

(** The exact value of a float as an integer multiple of [2^-1074], the
    smallest positive binary64; the infinities sit beyond every finite
    value.  Only the proofs use it. *)
Definition scaled (x : spec_float) : Z :=
  match x with
  | S754_zero _ => 0
  | S754_finite s m e => if s then - (Zpos m * 2 ^ (e + 1074)) else Zpos m * 2 ^ (e + 1074)
  | S754_infinity s => if s then - 2 ^ 2100 else 2 ^ 2100
  | S754_nan => 0
  end.

Definition not_nan (x : spec_float) : bool :=
  match x with S754_nan => false | _ => true end.

Definition mag (m : positive) (e : Z) : Z := Zpos m * 2 ^ (e + 1074).

End PyFloat.

Import PyFloat.

(** ** Exceptions

    [pyexc] is an exception raised by the Python runtime or by a
    library (PIL, ultralytics, json, the file system): its class and the
    text [str(e)].  [exn] adds FastAPI's [HTTPException], which only the
    handler raises. *)

Inductive pyexc : Type := PyExc (cls_name : string) (msg : string).

Definition str (e : pyexc) : string :=
  match e with PyExc _ m => m end.

Inductive exn : Type :=
| HTTPException (status_code : Z) (detail : string)
| Raised (e : pyexc).

(** Computations that may raise but touch nothing else. *)
Definition bindE {A B : Type} (c : pyexc + A) (k : A -> pyexc + B) : pyexc + B :=
  match c with
  | inl e => inl e
  | inr a => k a
  end.

Notation "x <-? c ;; k" := (bindE c (fun x => k))
  (at level 100, c at next level, right associativity).

(** ** Builtins *)

(** [int(x)] for a float [x]. *)
Definition py_int (x : pyfloat) : pyexc + Z :=
  match trunc_sf (sf x) with
  | Some z => inr z
  | None =>
      match sf x with
      | S754_nan => inl (PyExc "ValueError" "cannot convert float NaN to integer")
      | _ => inl (PyExc "OverflowError" "cannot convert float infinity to integer")
      end
  end.

(** [os.path.join(a, b)] for a relative [b] (posixpath). *)
Definition ends_with_slash (a : string) : bool :=
  match rev (list_ascii_of_string a) with
  | c :: _ => Ascii.eqb c "/"%char
  | [] => false
  end.

Definition os_path_join (a b : string) : string :=
  if (String.eqb a "" || ends_with_slash a)%bool then (a ++ b)%string
  else (a ++ "/" ++ b)%string.

(** [os.getenv(key, default)]. *)
Definition os_getenv (environ : gmap string string) (key dflt : string) : string :=
  default dflt (environ !! key).

(** [seq[0]]. *)
Definition index0 {A : Type} (l : list A) : pyexc + A :=
  match l with
  | x :: _ => inr x
  | [] => inl (PyExc "IndexError" "list index out of range")
  end.

(** ** The objects of ultralytics *)

(** One element of [result.boxes]: [box.xyxy[0].tolist()],
    [box.conf[0]] and [box.cls[0]]. *)
Record Boxes : Type := MkBoxes {
  xyxy : pyfloat * pyfloat * pyfloat * pyfloat;
  conf : pyfloat;
  cls : pyfloat
}.

(** A [Results]: the boxes kept for one image, the class-id to label
    dictionary and the image they were found in. *)
Record Results (Img : Type) : Type := MkResults {
  boxes : list Boxes;
  names : gmap Z string;
  orig_img : Img
}.

Arguments MkResults {Img} _ _ _.
Arguments boxes {Img} _.
Arguments names {Img} _.
Arguments orig_img {Img} _.

(** ** The collaborators of the handlers

    PIL, numpy, ultralytics, the file system and two builtins, as an
    interface: every property below holds for each of its instances. *)

Class Runtime : Type := {
  (** [PIL.Image.Image], the array of [Results.plot()], the file system *)
  PILImage : Type;
  ndarray : Type;
  FileSystem : Type;
  (** [Image.open(io.BytesIO(b))] *)
  Image_open : list Byte.byte -> pyexc + PILImage;
  (** [img.mode] and [img.convert(mode)] *)
  Image_mode : PILImage -> string;
  Image_convert : PILImage -> string -> pyexc + PILImage;
  (** [Image.fromarray(a)] *)
  Image_fromarray : ndarray -> pyexc + PILImage;
  (** [img.save(path)]: what it raises or returns, and the file system
      it leaves *)
  Image_save : PILImage -> string -> FileSystem -> (pyexc + unit) * FileSystem;
  (** [result.plot()] draws [result.boxes] over [result.orig_img] *)
  Results_plot : Results PILImage -> pyexc + ndarray;
  (** [YOLO(path)]: the loaded model, as what [model(img, conf=t)]
      returns *)
  YOLO_load : string -> FileSystem ->
              pyexc + (PILImage -> pyfloat -> pyexc + list (Results PILImage));
  (** [Path(d).mkdir(parents=True, exist_ok=True)] *)
  Path_mkdir : string -> FileSystem -> (pyexc + unit) * FileSystem;
  (** [round(x, ndigits)] and [float(s)] *)
  py_round : pyfloat -> Z -> pyfloat;
  py_float : string -> pyexc + pyfloat
}.

(** One record of the ["detections"] list of the response. *)
Record Detection : Type := MkDetection {
  box : list Z;
  label : string;
  score : pyfloat
}.

(** The content of the success response. *)
Record Response : Type := MkResponse {
  detections : list Detection;
  summary : gmap string nat
}.

(** What the handlers write to the logger. *)
Inductive LogRecord : Type :=
| InfoLoading (model_path : string)
| InfoLoaded
| InfoOutputReady (output_dir : string)
| ErrorLoad (msg : string)
| InfoRunning (confidence_threshold : pyfloat)
| InfoSaved (output_path : string)
| InfoComplete (n : nat)
| ErrorDuringDetection (msg : string).

Section Api.

Context `{RT : Runtime}.

(** A loaded model: what [model(img, conf=t)] returns. *)
Definition YOLO : Type := PILImage -> pyfloat -> pyexc + list (Results PILImage).

(** What a request does to its collaborators, in order: log records,
    calls of the model and calls of [save]. *)
Inductive Event : Type :=
| EvLog (r : LogRecord)
| EvInfer (img : PILImage) (confidence_threshold : pyfloat)
| EvSave (output_path : string).

(** The module's globals and the world around them. *)
Record World : Type := MkWorld {
  model : option YOLO;
  MODEL_PATH : string;
  OUTPUT_DIR : string;
  CONFIDENCE_THRESHOLD_DEFAULT : pyfloat;
  fs : FileSystem;
  events : list Event
}.

Definition emit (ev : Event) (w : World) : World :=
  MkWorld (model w) (MODEL_PATH w) (OUTPUT_DIR w) (CONFIDENCE_THRESHOLD_DEFAULT w)
          (fs w) (events w ++ [ev]).

Definition set_fs (f : FileSystem) (w : World) : World :=
  MkWorld (model w) (MODEL_PATH w) (OUTPUT_DIR w) (CONFIDENCE_THRESHOLD_DEFAULT w)
          f (events w).

Definition set_model (m : YOLO) (w : World) : World :=
  MkWorld (Some m) (MODEL_PATH w) (OUTPUT_DIR w) (CONFIDENCE_THRESHOLD_DEFAULT w)
          (fs w) (events w).

(** *** The handler monad: state and exceptions *)

Definition M (A : Type) : Type := World -> (exn + A) * World.

Definition ret {A : Type} (a : A) : M A := fun w => (inr a, w).

Definition bind {A B : Type} (c : M A) (k : A -> M B) : M B :=
  fun w =>
    match c w with
    | (inl e, w') => (inl e, w')
    | (inr a, w') => k a w'
    end.

Definition raise {A : Type} (e : exn) : M A := fun w => (inl e, w).

Definition gets {A : Type} (f : World -> A) : M A := fun w => (inr (f w), w).

(** The result of a library call: its exception propagates. *)
Definition call {A : Type} (r : pyexc + A) : M A :=
  fun w =>
    match r with
    | inl e => (inl (Raised e), w)
    | inr a => (inr a, w)
    end.

(** A library call on the file system. *)
Definition call_fs (op : FileSystem -> (pyexc + unit) * FileSystem) : M unit :=
  fun w =>
    match op (fs w) with
    | (inl e, f) => (inl (Raised e), set_fs f w)
    | (inr tt, f) => (inr tt, set_fs f w)
    end.

Definition log (r : LogRecord) : M unit := fun w => (inr tt, emit (EvLog r) w).

(** [try: body / except HTTPException: raise / except Exception as e:
    handler]. *)
Definition try_except {A : Type} (body : M A) (handler : pyexc -> M A) : M A :=
  fun w =>
    match body w with
    | (inl (Raised e), w') => handler e w'
    | r => r
    end.

Local Notation "x <- c ;; k" := (bind c (fun x => k))
  (at level 100, c at next level, right associativity).

(** *** Module import: the configuration globals *)

Definition import_main (environ : gmap string string) (f : FileSystem) : pyexc + World :=
  d <-? py_float (os_getenv environ "CONFIDENCE_THRESHOLD_DEFAULT" "0.25") ;;
  inr (MkWorld None
         (os_getenv environ "MODEL_PATH" "/app/models/yolov8n.pt")
         (os_getenv environ "OUTPUT_DIR" "/app/output")
         d f []).

(** *** [startup_event]

    Its [try] has the one clause [except Exception]; nothing in the
    body raises an [HTTPException], so [try_except] is that clause. *)

Definition startup_event : M unit :=
  try_except
    (model_path <- gets MODEL_PATH ;;
     _ <- log (InfoLoading model_path) ;;
     f <- gets fs ;;
     m <- call (YOLO_load model_path f) ;;
     _ <- (fun w => (inr tt, set_model m w)) ;;
     _ <- log InfoLoaded ;;
     output_dir <- gets OUTPUT_DIR ;;
     _ <- call_fs (Path_mkdir output_dir) ;;
     log (InfoOutputReady output_dir))
    (fun e =>
       _ <- log (ErrorLoad (str e)) ;;
       raise (Raised e)).

(** *** [health_check] *)

Record HealthStatus : Type := MkHealth { status : string }.

Definition health_check : M HealthStatus := ret (MkHealth "ok").

(** *** [detect_objects] *)

(** [0.0 <= confidence_threshold <= 1.0] *)
Definition threshold_in_range (t : pyfloat) : bool :=
  (py_le f_0_0 t && py_le t f_1_0)%bool.

(** The body of the inner [try]: read, open and convert the upload. *)
Definition read_image (image : list Byte.byte) : pyexc + PILImage :=
  img <-? Image_open image ;;
  if negb (String.eqb (Image_mode img) "RGB") then Image_convert img "RGB"
  else inr img.

(** [model(img, conf=t)], on the global [model]. *)
Definition infer (img : PILImage) (t : pyfloat) : M (list (Results PILImage)) :=
  m <- gets model ;;
  match m with
  | None => call (inl (PyExc "TypeError" "'NoneType' object is not callable"))
  | Some mdl =>
      _ <- (fun w => (inr tt, emit (EvInfer img t) w)) ;;
      call (mdl img t)
  end.

(** The body of [for box in boxes]: one detection appended, one label
    counted. *)
Definition process_box (result : Results PILImage) (b : Boxes)
    (acc : list Detection * gmap string nat) : pyexc + (list Detection * gmap string nat) :=
  let '(dets, class_counts) := acc in
  let '(x_min, y_min, x_max, y_max) := xyxy b in
  let score := conf b in
  class_id <-? py_int (cls b) ;;
  lbl <-? match names result !! class_id with
          | Some l => inr l
          | None => inl (PyExc "KeyError" (pretty class_id))
          end ;;
  x0 <-? py_int x_min ;;
  y0 <-? py_int y_min ;;
  x1 <-? py_int x_max ;;
  y1 <-? py_int y_max ;;
  inr (dets ++ [MkDetection [x0; y0; x1; y1] lbl (py_round score 2)],
       <[lbl := S (default 0%nat (class_counts !! lbl))]> class_counts).

Fixpoint for_boxes (result : Results PILImage) (bs : list Boxes)
    (acc : list Detection * gmap string nat) : pyexc + (list Detection * gmap string nat) :=
  match bs with
  | [] => inr acc
  | b :: bs' => acc' <-? process_box result b acc ;; for_boxes result bs' acc'
  end.

Fixpoint for_results (rs : list (Results PILImage))
    (acc : list Detection * gmap string nat) : pyexc + (list Detection * gmap string nat) :=
  match rs with
  | [] => inr acc
  | r :: rs' => acc' <-? for_boxes r (boxes r) acc ;; for_results rs' acc'
  end.

(** [JSONResponse(content=...)] renders the content at once, with
    [json.dumps(..., allow_nan=False)]. *)
Definition JSONResponse (content : Response) : pyexc + Response :=
  if forallb (fun d => is_finite (score d)) (detections content) then inr content
  else inl (PyExc "ValueError" "Out of range float values are not JSON compliant").

Definition save_image (img : PILImage) (path : string) : M unit :=
  _ <- (fun w => (inr tt, emit (EvSave path) w)) ;;
  call_fs (Image_save img path).

Definition detect_objects (image : list Byte.byte) (confidence_threshold : pyfloat)
    : M Response :=
  m <- gets model ;;
  match m with
  | None => raise (HTTPException 503 "Model not loaded")
  | Some _ =>
    try_except
      (if negb (threshold_in_range confidence_threshold) then
         raise (HTTPException 400 "confidence_threshold must be between 0.0 and 1.0")
       else
         match read_image image with
         | inl e => raise (HTTPException 400 ("Invalid image file: " ++ str e))
         | inr img =>
           _ <- log (InfoRunning confidence_threshold) ;;
           results <- infer img confidence_threshold ;;
           acc <- call (for_results results ([], ∅)) ;;
           output_dir <- gets OUTPUT_DIR ;;
           let output_path := os_path_join output_dir "last_annotated.jpg" in
           result0 <- call (index0 results) ;;
           annotated_img <- call (Results_plot result0) ;;
           annotated_pil <- call (Image_fromarray annotated_img) ;;
           _ <- save_image annotated_pil output_path ;;
           _ <- log (InfoSaved output_path) ;;
           let response := MkResponse (fst acc) (snd acc) in
           _ <- log (InfoComplete (length (fst acc))) ;;
           call (JSONResponse response)
         end)
      (fun e =>
         _ <- log (ErrorDuringDetection (str e)) ;;
         raise (HTTPException 500 ("Detection failed: " ++ str e)))
  end.

(** *** The [/detect] route: the form field may be omitted *)

Record DetectForm : Type := MkForm {
  image : list Byte.byte;
  confidence_threshold : option pyfloat
}.

Definition post_detect (form : DetectForm) : M Response :=
  d <- gets CONFIDENCE_THRESHOLD_DEFAULT ;;
  detect_objects (image form) (default d (confidence_threshold form)).

(** *** The life of the application

    [serves w w'] when [w'] is reached from [w] by running handlers:
    the startup hook, health checks and detection requests. *)

Inductive serves : World -> World -> Prop :=
| serves_here (w : World) : serves w w
| serves_startup (w w1 w2 : World) (res : exn + unit) :
    serves w w1 -> startup_event w1 = (res, w2) -> serves w w2
| serves_health (w w1 w2 : World) (res : exn + HealthStatus) :
    serves w w1 -> health_check w1 = (res, w2) -> serves w w2
| serves_detect (w w1 w2 : World) (form : DetectForm) (res : exn + Response) :
    serves w w1 -> post_detect form w1 = (res, w2) -> serves w w2.

End Api.
(** ** The dashboard: the URLs of [src/ui/app.py] *)

(** [s.find(old)]: where [old] first occurs in [s]. *)
Fixpoint str_find (old s : string) : option nat :=
  if String.prefix old s then Some O
  else match s with
       | EmptyString => None
       | String _ s' => option_map S (str_find old s')
       end.

Fixpoint str_drop (n : nat) (s : string) : string :=
  match n, s with
  | S k, String _ s' => str_drop k s'
  | _, _ => s
  end.

Fixpoint str_take (n : nat) (s : string) : string :=
  match n, s with
  | S k, String c s' => String c (str_take k s')
  | _, _ => EmptyString
  end.

(** [s.replace(old, new)] for a non-empty [old]: every occurrence,
    left to right, none overlapping.  [skip] counts the characters of
    an occurrence still to pass over. *)
Fixpoint replace_go (old new : string) (skip : nat) (s : string) : string :=
  match s with
  | EmptyString => EmptyString
  | String c s' =>
      match skip with
      | S k => replace_go old new k s'
      | O =>
          if String.prefix old s
          then (new ++ replace_go old new (String.length old - 1) s')%string
          else String c (replace_go old new O s')
      end
  end.

(** With an empty [old], [new] goes before every character and at the
    end. *)
Fixpoint str_intersperse (new s : string) : string :=
  match s with
  | EmptyString => new
  | String c s' => (new ++ String c (str_intersperse new s'))%string
  end.

Definition str_replace (s old new : string) : string :=
  if String.eqb old "" then str_intersperse new s else replace_go old new O s.

(** [API_URL] and [API_HEALTH_URL], as the script computes them from
    the environment. *)
Definition API_URL (environ : gmap string string) : string :=
  os_getenv environ "API_URL" "http://api:8000/detect".

Definition API_HEALTH_URL (environ : gmap string string) : string :=
  str_replace (os_getenv environ "API_URL" "http://api:8000") "/detect" "/health".

(** ** The vocabulary of the properties *)

Section Vocabulary.

Context `{RT : Runtime}.

(** The number of detections whose [label] field is [l]. *)
Definition count_label (l : string) (ds : list Detection) : nat :=
  length (List.filter (fun d => String.eqb (label d) l) ds).

(** The sum of the counts of a summary. *)
Definition total (c : gmap string nat) : nat :=
  map_fold (fun _ n acc => (n + acc)%nat) 0%nat c.

(** [d] is the public record of the raw box [b] of [result]: label
    resolved through [names], corners truncated, score rounded. *)
Definition detection_of (result : Results PILImage) (b : Boxes) (d : Detection) : Prop :=
  let '(x_min, y_min, x_max, y_max) := xyxy b in
  exists class_id x0 y0 x1 y1,
    py_int (cls b) = inr class_id /\
    names result !! class_id = Some (label d) /\
    py_int x_min = inr x0 /\ py_int y_min = inr y0 /\
    py_int x_max = inr x1 /\ py_int y_max = inr y1 /\
    box d = [x0; y0; x1; y1] /\
    score d = py_round (conf b) 2.

(** A summary tallies a list of detections: a label that occurs maps to
    its number of occurrences, a label that does not is no key. *)
Definition tallied (ds : list Detection) (c : gmap string nat) : Prop :=
  forall l, c !! l = match count_label l ds with
                     | O => None
                     | S n => Some (S n)
                     end.

(** The state of the loops is consistent: the counts tally the
    detections and sum to their number. *)
Definition counted (acc : list Detection * gmap string nat) : Prop :=
  tallied (fst acc) (snd acc) /\ total (snd acc) = length (fst acc).


(** The path of the annotated image, and the world a run leaves: its
    file system and the events it adds. *)
Definition output_path (w : World) : string :=
  os_path_join (OUTPUT_DIR w) "last_annotated.jpg".

Definition with_run (w : World) (f : FileSystem) (evs : list Event) : World :=
  MkWorld (model w) (MODEL_PATH w) (OUTPUT_DIR w) (CONFIDENCE_THRESHOLD_DEFAULT w)
          f (events w ++ evs).

(** The new events of a run: those of [w'] past those of [w]. *)
Definition new_events (w w' : World) : list Event :=
  drop (length (events w)) (events w').

Definition is_infer (ev : Event) : bool :=
  match ev with EvInfer _ _ => true | _ => false end.

Definition is_save (ev : Event) : bool :=
  match ev with EvSave _ => true | _ => false end.

(** The calls of [detect_objects] between its first log record and
    [save]: the model, the loops, [results[0].plot()] and
    [Image.fromarray].  They raise or return, and touch nothing. *)
Definition before_save (mdl : YOLO) (img : PILImage) (t : pyfloat)
    : pyexc + (list (Results PILImage) * (list Detection * gmap string nat) * PILImage) :=
  results <-? mdl img t ;;
  acc <-? for_results results ([], ∅) ;;
  result0 <-? index0 results ;;
  annotated_img <-? Results_plot result0 ;;
  annotated_pil <-? Image_fromarray annotated_img ;;
  inr (results, acc, annotated_pil).

(** The paths of one run of [detect_objects]: for each, the answer, the
    file system left and the events added. *)
Inductive outcome (image : list Byte.byte) (t : pyfloat) (w : World)
    : exn + Response -> FileSystem -> list Event -> Prop :=
| out_unavailable :
    model w = None ->
    outcome image t w (inl (HTTPException 503 "Model not loaded")) (fs w) []
| out_bad_threshold (mdl : YOLO) :
    model w = Some mdl -> threshold_in_range t = false ->
    outcome image t w
      (inl (HTTPException 400 "confidence_threshold must be between 0.0 and 1.0"))
      (fs w) []
| out_bad_image (mdl : YOLO) (e : pyexc) :
    model w = Some mdl -> threshold_in_range t = true ->
    read_image image = inl e ->
    outcome image t w (inl (HTTPException 400 ("Invalid image file: " ++ str e)))
      (fs w) []
| out_failed_before_save (mdl : YOLO) (img : PILImage) (e : pyexc) :
    model w = Some mdl -> threshold_in_range t = true ->
    read_image image = inr img -> before_save mdl img t = inl e ->
    outcome image t w (inl (HTTPException 500 ("Detection failed: " ++ str e)))
      (fs w)
      [EvLog (InfoRunning t); EvInfer img t; EvLog (ErrorDuringDetection (str e))]
| out_failed_save (mdl : YOLO) (img pil : PILImage) (results : list (Results PILImage))
    (acc : list Detection * gmap string nat) (e : pyexc) (f : FileSystem) :
    model w = Some mdl -> threshold_in_range t = true ->
    read_image image = inr img -> before_save mdl img t = inr (results, acc, pil) ->
    Image_save pil (output_path w) (fs w) = (inl e, f) ->
    outcome image t w (inl (HTTPException 500 ("Detection failed: " ++ str e))) f
      [EvLog (InfoRunning t); EvInfer img t; EvSave (output_path w);
       EvLog (ErrorDuringDetection (str e))]
| out_failed_render (mdl : YOLO) (img pil : PILImage) (results : list (Results PILImage))
    (acc : list Detection * gmap string nat) (e : pyexc) (f : FileSystem) :
    model w = Some mdl -> threshold_in_range t = true ->
    read_image image = inr img -> before_save mdl img t = inr (results, acc, pil) ->
    Image_save pil (output_path w) (fs w) = (inr tt, f) ->
    JSONResponse (MkResponse (fst acc) (snd acc)) = inl e ->
    outcome image t w (inl (HTTPException 500 ("Detection failed: " ++ str e))) f
      [EvLog (InfoRunning t); EvInfer img t; EvSave (output_path w);
       EvLog (InfoSaved (output_path w)); EvLog (InfoComplete (length (fst acc)));
       EvLog (ErrorDuringDetection (str e))]
| out_success (mdl : YOLO) (img pil : PILImage) (results : list (Results PILImage))
    (acc : list Detection * gmap string nat) (f : FileSystem) :
    model w = Some mdl -> threshold_in_range t = true ->
    read_image image = inr img -> before_save mdl img t = inr (results, acc, pil) ->
    Image_save pil (output_path w) (fs w) = (inr tt, f) ->
    JSONResponse (MkResponse (fst acc) (snd acc)) = inr (MkResponse (fst acc) (snd acc)) ->
    outcome image t w (inr (MkResponse (fst acc) (snd acc))) f
      [EvLog (InfoRunning t); EvInfer img t; EvSave (output_path w);
       EvLog (InfoSaved (output_path w)); EvLog (InfoComplete (length (fst acc)))].

(** The status code of an answer: 200 for a response. *)
Definition status_of (res : exn + Response) : option Z :=
  match res with
  | inr _ => Some 200
  | inl (HTTPException code _) => Some code
  | inl (Raised _) => None
  end.

(** A box the loop body can turn into a record: a finite class id
    that [names] knows, and four finite corners. *)
Definition box_processable (result : Results PILImage) (b : Boxes) : Prop :=
  let '(x_min, y_min, x_max, y_max) := xyxy b in
  (exists class_id, py_int (cls b) = inr class_id /\ is_Some (names result !! class_id)) /\
  is_finite x_min = true /\ is_finite y_min = true /\
  is_finite x_max = true /\ is_finite y_max = true.

End Vocabulary.

(** ** The Detector of the specification *)

Section Detector.

Context {Img : Type}.

(** Modelled from the spec: the Detector.  The model object is built by
    the ultralytics library, which is no part of this repository; the
    contract of section 4.2 stands for it.  A forward pass over the
    pixel buffer yields the candidate objects, whatever the threshold;
    the Detector retains only the candidates whose confidence score is
    [>=] the threshold, a score equal to the threshold included, and its
    overlay shows the same retained set ([Results_plot] draws the
    [boxes] of the result it is given). *)
Definition retain (t : pyfloat) (r : Results Img) : Results Img :=
  MkResults (List.filter (fun b => py_le t (conf b)) (boxes r)) (names r) (orig_img r).

Definition spec_detector (forward : Img -> pyexc + list (Results Img))
    : Img -> pyfloat -> pyexc + list (Results Img) :=
  fun img t => rs <-? forward img ;; inr (map (retain t) rs).

(** The candidates of a forward pass, over all its results. *)
Definition candidates (rs : list (Results Img)) : list Boxes :=
  concat (map boxes rs).

(** The candidates the Detector retains at threshold [t]. *)
Definition kept (t : pyfloat) (rs : list (Results Img)) : list Boxes :=
  List.filter (fun b => py_le t (conf b)) (candidates rs).


End Detector.

(** ** A small instance, to run the handlers on *)

Module Demo.

(** The binary64 nearest to [m * 2^e]. *)
Definition dyadic (m e : Z) : spec_float := binary_normalize prec emax m e false.

Definition f_10_5 : pyfloat := MkFloat (dyadic 21 (-1)) eq_refl.
Definition f_20_75 : pyfloat := MkFloat (dyadic 83 (-2)) eq_refl.
Definition f_110_5 : pyfloat := MkFloat (dyadic 221 (-1)) eq_refl.
Definition f_220_25 : pyfloat := MkFloat (dyadic 881 (-2)) eq_refl.
Definition f_0_75 : pyfloat := MkFloat (dyadic 3 (-2)) eq_refl.
Definition f_m2_5 : pyfloat := MkFloat (dyadic (-5) (-1)) eq_refl.
Definition f_m0_25 : pyfloat := MkFloat (dyadic (-1) (-2)) eq_refl.
Definition f_inf : pyfloat := MkFloat (S754_infinity false) eq_refl.
Definition f_16_0 : pyfloat := MkFloat (dyadic 16 0) eq_refl.

(** An image is its bytes and the boxes drawn over them. *)
Definition image_t : Type := list Byte.byte * list Boxes.

(** The file system: the files, and whether the output directory can be
    written. *)
Record files_t : Type := MkFiles {
  writable : bool;
  files : gmap string image_t
}.

(** What [save] raises when the directory cannot be written. *)
Definition denied (path : string) : pyexc :=
  PyExc "PermissionError" ("[Errno 13] Permission denied: '" ++ path ++ "'").

(** Three candidates on every image: a person (class 0) at 0.75, a dog
    (class 16) at 0.5 and another person at 0.25. *)
Definition coco : gmap Z string := <[16 := "dog"]> (<[0 := "person"]> ∅).

Definition forward (img : image_t) : pyexc + list (Results image_t) :=
  inr [MkResults
         [MkBoxes (f_10_5, f_20_75, f_110_5, f_220_25) f_0_75 f_0_0;
          MkBoxes (f_0_0, f_10_5, f_20_75, f_110_5) f_0_5 f_16_0;
          MkBoxes (f_0_25, f_0_5, f_10_5, f_20_75) f_0_25 f_0_0]
         coco img].

(** [round] is exact on the scores above, which have two decimals; and
    [float] reads the two strings the examples put in the environment. *)
Definition rt : Runtime := {|
  PILImage := image_t;
  ndarray := image_t;
  FileSystem := files_t;
  Image_open := fun b =>
    match b with
    | [] => inl (PyExc "UnidentifiedImageError" "cannot identify image file")
    | _ => inr (b, [])
    end;
  Image_mode := fun _ => "RGB";
  Image_convert := fun img _ => inr img;
  Image_fromarray := fun a => inr a;
  Image_save := fun img path f =>
    if writable f then (inr tt, MkFiles true (<[path := img]> (files f)))
    else (inl (denied path), f);
  Results_plot := fun r => inr (fst (orig_img r), boxes r);
  YOLO_load := fun _ _ => inr (spec_detector forward);
  Path_mkdir := fun _ f => (inr tt, f);
  py_round := fun x _ => x;
  py_float := fun s =>
    if String.eqb s "0.25" then inr f_0_25
    else if String.eqb s "0.5" then inr f_0_5
    else inl (PyExc "ValueError" "could not convert string to float")
|}.

Definition detector : @YOLO rt := spec_detector forward.

Definition world (m : option (@YOLO rt)) (can_write : bool) : @World rt :=
  @MkWorld rt m "/app/models/yolov8n.pt" "/app/output" f_0_25 (MkFiles can_write ∅) [].

Definition png : list Byte.byte := [Byte.x89; Byte.x50; Byte.x4e; Byte.x47].

(** [png] once decoded: nothing drawn over it yet. *)
Definition decoded : image_t := (png, []).

(** A detection request on [png], the model loaded. *)
Definition run (t : pyfloat) (can_write : bool) : (exn + Response) * @World rt :=
  @detect_objects rt png t (world (Some detector) can_write).

Definition response (t : pyfloat) : Response :=
  match fst (run t true) with
  | inr r => r
  | inl _ => MkResponse [] ∅
  end.

Definition after (t : pyfloat) : @World rt := snd (run t true).

(** The same request once more, in the world an earlier request at
    threshold [t0] left. *)
Definition again (t0 t : pyfloat) : (exn + Response) * @World rt :=
  @detect_objects rt png t (after t0).

Definition response_again (t0 t : pyfloat) : Response :=
  match fst (again t0 t) with
  | inr r => r
  | inl _ => MkResponse [] ∅
  end.

(** The annotated image of that request: the boxes kept, over [png]. *)
Definition annotated (t : pyfloat) : image_t :=
  match forward decoded with
  | inr rs => (png, kept t rs)
  | inl _ => (png, [])
  end.

(** The application started under an environment: the module imported,
    then the startup hook run. *)
Definition imported (environ : gmap string string) : @World rt :=
  match @import_main rt environ (MkFiles true ∅) with
  | inr w => w
  | inl _ => world None true
  end.

Definition started (environ : gmap string string) : @World rt :=
  snd (@startup_event rt (imported environ)).

Definition environ_0_5 : gmap string string :=
  {[ "CONFIDENCE_THRESHOLD_DEFAULT" := "0.5" ]}.

End Demo.

(** ** More instances: models and a runtime that fail *)

Module Cases.

Import Demo.

(** A model that returns no result at all, one that finds no object,
    and one whose only box has a class id (1) that [names] lacks. *)
Definition empty_model : @YOLO rt := fun _ _ => inr [].

Definition blank_model : @YOLO rt := fun img _ => inr [MkResults [] coco img].

Definition odd_model : @YOLO rt :=
  fun img _ =>
    inr [MkResults [MkBoxes (f_10_5, f_20_75, f_110_5, f_220_25) f_0_75 f_1_0] coco img].

Definition blank_result : Results image_t := MkResults [] coco decoded.

(** A runtime whose model file may be missing and whose output
    directory may be refused. *)
Definition missing (path : string) : pyexc :=
  PyExc "FileNotFoundError" ("[Errno 2] No such file or directory: '" ++ path ++ "'").

Definition rt_failing : Runtime := {|
  PILImage := image_t;
  ndarray := image_t;
  FileSystem := files_t;
  Image_open := @Image_open rt;
  Image_mode := @Image_mode rt;
  Image_convert := @Image_convert rt;
  Image_fromarray := @Image_fromarray rt;
  Image_save := @Image_save rt;
  Results_plot := @Results_plot rt;
  YOLO_load := fun path _ =>
    if String.eqb path "/app/models/yolov8n.pt" then inr (spec_detector forward)
    else inl (missing path);
  Path_mkdir := fun dir f =>
    if writable f then (inr tt, f) else (inl (denied dir), f);
  py_round := @py_round rt;
  py_float := @py_float rt
|}.

Definition fresh (model_path : string) (can_write : bool) : @World rt_failing :=
  @MkWorld rt_failing None model_path "/app/output" f_0_25 (MkFiles can_write ∅) [].

(** The started application after one detection request on [png]. *)
Definition form : DetectForm := MkForm png None.

Definition served : @World rt := snd (@post_detect rt form (started ∅)).

Definition environ_local : gmap string string :=
  {[ "API_URL" := "http://localhost:8000/detect" ]}.

End Cases.

(** * Properties *)

(** ** The order of floats *)

Section FloatOrder.

Lemma digits2_pos_bounds (m : positive) :
  2 ^ (Zpos (digits2_pos m) - 1) <= Zpos m < 2 ^ Zpos (digits2_pos m).
Proof.
  induction m as [p IH | p IH |]; cbn [digits2_pos].
  - rewrite Pos2Z.inj_succ. change (Zpos p~1) with (2 * Zpos p + 1).
    replace (Z.succ (Zpos (digits2_pos p)) - 1) with (Z.succ (Zpos (digits2_pos p) - 1)) by lia.
    rewrite !Z.pow_succ_r by lia.
    generalize dependent (2 ^ (Zpos (digits2_pos p) - 1)).
    generalize dependent (2 ^ (Zpos (digits2_pos p))). intros; lia.
  - rewrite Pos2Z.inj_succ. change (Zpos p~0) with (2 * Zpos p).
    replace (Z.succ (Zpos (digits2_pos p)) - 1) with (Z.succ (Zpos (digits2_pos p) - 1)) by lia.
    rewrite !Z.pow_succ_r by lia.
    generalize dependent (2 ^ (Zpos (digits2_pos p) - 1)).
    generalize dependent (2 ^ (Zpos (digits2_pos p))). intros; lia.
  - cbn. lia.
Qed.

Lemma bounded_inv (m : positive) (e : Z) :
  bounded prec emax m e = true ->
  -1074 <= e <= 971 /\ Zpos (digits2_pos m) <= 53 /\
  (-1074 < e -> Zpos (digits2_pos m) = 53).
Proof.
  unfold bounded, canonical_mantissa, fexp, emin, prec, emax.
  intros H. apply andb_prop in H as [H1 H2].
  apply Z.eqb_eq in H1. apply Z.leb_le in H2. lia.
Qed.

Lemma mag_bounds (m : positive) (e : Z) :
  bounded prec emax m e = true -> 0 < mag m e < 2 ^ 2100.
Proof.
  intros Hb. apply bounded_inv in Hb as (He & Hd & _).
  pose proof (digits2_pos_bounds m) as [_ Hm].
  assert (Hp : 0 < 2 ^ (e + 1074)) by (apply Z.pow_pos_nonneg; lia).
  assert (H53 : 2 ^ Zpos (digits2_pos m) <= 2 ^ 53) by (apply Z.pow_le_mono_r; lia).
  assert (He' : 2 ^ (e + 1074) <= 2 ^ 2045) by (apply Z.pow_le_mono_r; lia).
  assert (Hs : 2 ^ 53 * 2 ^ 2045 < 2 ^ 2100).
  { rewrite <- Z.pow_add_r by lia. apply Z.pow_lt_mono_r; lia. }
  unfold mag. split; [lia |].
  apply Z.lt_le_trans with (2 ^ 53 * 2 ^ (e + 1074)).
  - apply Z.mul_lt_mono_pos_r; lia.
  - apply Z.le_trans with (2 ^ 53 * 2 ^ 2045); [| lia].
    apply Z.mul_le_mono_nonneg_l; [apply Z.pow_nonneg; lia | exact He'].
Qed.

Lemma mag_lt (m1 m2 : positive) (e1 e2 : Z) :
  bounded prec emax m1 e1 = true -> bounded prec emax m2 e2 = true ->
  e1 < e2 -> mag m1 e1 < mag m2 e2.
Proof.
  intros Hb1 Hb2 Hlt.
  apply bounded_inv in Hb1 as (He1 & Hd1 & _).
  apply bounded_inv in Hb2 as (He2 & _ & Hd2).
  pose proof (digits2_pos_bounds m1) as [_ Hm1].
  pose proof (digits2_pos_bounds m2) as [Hm2 _].
  rewrite Hd2 in Hm2 by lia. change (53 - 1) with 52 in Hm2.
  assert (H53 : 2 ^ Zpos (digits2_pos m1) <= 2 ^ 53) by (apply Z.pow_le_mono_r; lia).
  assert (Hp1 : 0 < 2 ^ (e1 + 1074)) by (apply Z.pow_pos_nonneg; lia).
  assert (Hstep : 2 * 2 ^ (e1 + 1074) <= 2 ^ (e2 + 1074)).
  { rewrite <- Z.pow_succ_r by lia. apply Z.pow_le_mono_r; lia. }
  assert (H5253 : 2 ^ 53 = 2 * 2 ^ 52) by (rewrite <- Z.pow_succ_r by lia; reflexivity).
  unfold mag.
  apply Z.lt_le_trans with (2 ^ 53 * 2 ^ (e1 + 1074)).
  - apply Z.mul_lt_mono_pos_r; lia.
  - apply Z.le_trans with (2 ^ 52 * 2 ^ (e2 + 1074)).
    + replace (2 ^ 53 * 2 ^ (e1 + 1074)) with (2 ^ 52 * (2 * 2 ^ (e1 + 1074)))
        by (rewrite H5253; ring).
      apply Z.mul_le_mono_nonneg_l; [apply Z.pow_nonneg; lia | exact Hstep].
    + apply Z.mul_le_mono_nonneg_r; [apply Z.pow_nonneg; lia | exact Hm2].
Qed.

Lemma mag_compare (m1 m2 : positive) (e1 e2 : Z) :
  bounded prec emax m1 e1 = true -> bounded prec emax m2 e2 = true ->
  match e1 ?= e2 with
  | Lt => Lt
  | Gt => Gt
  | Eq => Pos.compare_cont Eq m1 m2
  end = (mag m1 e1 ?= mag m2 e2).
Proof.
  intros Hb1 Hb2. destruct (Z.compare_spec e1 e2) as [-> | Hlt | Hgt].
  - unfold mag. change (Pos.compare_cont Eq m1 m2) with (Zpos m1 ?= Zpos m2).
    assert (Hp : 0 < 2 ^ (e2 + 1074)).
    { apply bounded_inv in Hb2 as (He & _). apply Z.pow_pos_nonneg; lia. }
    destruct (Z.compare_spec (Zpos m1) (Zpos m2)) as [E | L | G]; symmetry.
    + apply Z.compare_eq_iff. now rewrite E.
    + apply Z.compare_lt_iff. now apply Z.mul_lt_mono_pos_r.
    + apply Z.compare_gt_iff. now apply Z.mul_lt_mono_pos_r.
  - symmetry. apply Z.compare_lt_iff. now apply mag_lt.
  - symmetry. apply Z.compare_gt_iff. now apply mag_lt.
Qed.

(** On binary64 values other than NaN, [SFcompare] is the order of the
    exact values. *)
Lemma SFcompare_scaled (x y : spec_float) :
  valid_binary prec emax x = true -> valid_binary prec emax y = true ->
  not_nan x = true -> not_nan y = true ->
  SFcompare x y = Some (scaled x ?= scaled y).
Proof.
  assert (Hinf : 0 < 2 ^ 2100) by (apply Z.pow_pos_nonneg; lia).
  destruct x as [sx | sx | | sx mx ex], y as [sy | sy | | sy my ey];
    cbn [valid_binary not_nan SFcompare scaled]; intros Hx Hy Nx Ny;
    try discriminate; f_equal;
    try (pose proof (mag_bounds _ _ Hx) as Bx; fold (mag mx ex));
    try (pose proof (mag_bounds _ _ Hy) as By; fold (mag my ey));
    generalize dependent (2 ^ 2100); intros.
  all: try (destruct sx); try (destruct sy); symmetry;
    try (apply Z.compare_eq_iff; lia); try (apply Z.compare_lt_iff; lia);
    try (apply Z.compare_gt_iff; lia).
  - rewrite Z.compare_opp, Z.compare_antisym. f_equal.
    rewrite <- (mag_compare _ _ _ _ Hx Hy).
    destruct (ex ?= ey); reflexivity.
  - symmetry. now apply mag_compare.
Qed.

Lemma py_le_scaled (x y : pyfloat) :
  py_le x y = true <->
  not_nan (sf x) = true /\ not_nan (sf y) = true /\ scaled (sf x) <= scaled (sf y).
Proof.
  unfold py_le, SFleb. destruct x as [x Hx], y as [y Hy]; cbn [sf].
  destruct (not_nan x) eqn:Nx.
  2:{ destruct x; try discriminate. cbn. split; [discriminate | intros (? & _); discriminate]. }
  destruct (not_nan y) eqn:Ny.
  2:{ destruct y; try discriminate. destruct x; cbn; (split; [discriminate | intros (_ & ? & _); discriminate]). }
  rewrite (SFcompare_scaled x y Hx Hy Nx Ny).
  destruct (Z.compare_spec (scaled x) (scaled y)); split; intros; try discriminate;
    repeat split; try reflexivity; try lia.
Qed.

(** [<=] on floats is transitive. *)
Lemma py_le_trans (x y z : pyfloat) :
  py_le x y = true -> py_le y z = true -> py_le x z = true.
Proof.
  rewrite !py_le_scaled. intros (? & ? & ?) (? & ? & ?). repeat split; trivial. lia.
Qed.



End FloatOrder.


(** ** The builtins on some values *)

Example py_int_truncates :
  py_int Demo.f_10_5 = inr 10 /\ py_int Demo.f_220_25 = inr 220 /\
  py_int Demo.f_m2_5 = inr (-2) /\ py_int Demo.f_m0_25 = inr 0 /\
  py_int f_0_0 = inr 0.
Proof. repeat split; reflexivity. Qed.

Example py_int_raises :
  py_int f_nan = inl (PyExc "ValueError" "cannot convert float NaN to integer") /\
  py_int Demo.f_inf =
    inl (PyExc "OverflowError" "cannot convert float infinity to integer").
Proof. split; reflexivity. Qed.

Example threshold_in_range_ends :
  threshold_in_range f_0_0 = true /\ threshold_in_range f_1_0 = true /\
  threshold_in_range f_0_25 = true /\ threshold_in_range f_2_0 = false /\
  threshold_in_range Demo.f_m0_25 = false /\ threshold_in_range f_nan = false /\
  threshold_in_range Demo.f_inf = false.
Proof. repeat split; reflexivity. Qed.

Example os_path_join_output :
  os_path_join "/app/output" "last_annotated.jpg" = "/app/output/last_annotated.jpg" /\
  os_path_join "/app/output/" "last_annotated.jpg" = "/app/output/last_annotated.jpg" /\
  os_path_join "" "last_annotated.jpg" = "last_annotated.jpg".
Proof. repeat split; reflexivity. Qed.

(** ** The loops of [detect_objects] *)

Section Loops.

Context `{RT : Runtime}.

Lemma count_label_app (l : string) (ds1 ds2 : list Detection) :
  count_label l (ds1 ++ ds2) = (count_label l ds1 + count_label l ds2)%nat.
Proof. unfold count_label. now rewrite List.filter_app, length_app. Qed.

Lemma count_label_last (l : string) (ds : list Detection) (d : Detection) :
  count_label l (ds ++ [d]) =
  if decide (label d = l) then S (count_label l ds) else count_label l ds.
Proof.
  rewrite count_label_app. unfold count_label at 2. cbn [List.filter].
  destruct (String.eqb_spec (label d) l) as [E | N]; case_decide; try contradiction.
  all: cbn [length]; lia.
Qed.

Lemma tallied_nil : tallied [] ∅.
Proof. intros l. now rewrite lookup_empty. Qed.

Lemma tallied_step (ds : list Detection) (c : gmap string nat) (d : Detection) :
  tallied ds c ->
  tallied (ds ++ [d]) (<[label d := S (default 0%nat (c !! label d))]> c).
Proof.
  intros H l. rewrite count_label_last. case_decide as E.
  - subst l. rewrite lookup_insert_eq, (H (label d)).
    destruct (count_label (label d) ds); reflexivity.
  - rewrite lookup_insert_ne by assumption. apply H.
Qed.

Lemma total_step (c : gmap string nat) (k : string) :
  total (<[k := S (default 0%nat (c !! k))]> c) = S (total c).
Proof.
  unfold total. destruct (c !! k) as [n |] eqn:E; cbn [default].
  - rewrite <- insert_delete_eq.
    rewrite map_fold_insert_L; [| intros; lia | apply lookup_delete_eq].
    rewrite (map_fold_delete_L _ _ k n c); [unfold id; lia | intros; lia | exact E].
  - rewrite map_fold_insert_L; [lia | intros; lia | exact E].
Qed.

Lemma counted_step (ds : list Detection) (c : gmap string nat) (d : Detection) :
  counted (ds, c) ->
  counted (ds ++ [d], <[label d := S (default 0%nat (c !! label d))]> c).
Proof.
  unfold counted; cbn [fst snd]. intros [Ht Hs]. split.
  - now apply tallied_step.
  - rewrite total_step, Hs, length_app. cbn [length]. lia.
Qed.

Lemma process_box_spec (r : Results PILImage) (b : Boxes)
    (acc acc' : list Detection * gmap string nat) :
  process_box r b acc = inr acc' ->
  exists d, fst acc' = fst acc ++ [d] /\ detection_of r b d /\
            (counted acc -> counted acc').
Proof.
  unfold process_box, detection_of. destruct acc as [ds c].
  destruct (xyxy b) as [[[x_min y_min] x_max] y_max].
  destruct (py_int (cls b)) as [e | class_id]; [discriminate |]; cbn [bindE].
  destruct (names r !! class_id) as [lbl |] eqn:Hn; [| discriminate]; cbn [bindE].
  destruct (py_int x_min) as [e | x0]; [discriminate |]; cbn [bindE].
  destruct (py_int y_min) as [e | y0]; [discriminate |]; cbn [bindE].
  destruct (py_int x_max) as [e | x1]; [discriminate |]; cbn [bindE].
  destruct (py_int y_max) as [e | y1]; [discriminate |]; cbn [bindE].
  intros [= <-]. eexists; cbn [fst snd]. split; [reflexivity |]. split.
  - exists class_id, x0, y0, x1, y1. cbn [label box score]. repeat split; auto.
  - intros H.
    exact (counted_step ds c (MkDetection [x0; y0; x1; y1] lbl (py_round (conf b) 2)) H).
Qed.

Lemma for_boxes_spec (r : Results PILImage) (bs : list Boxes) :
  forall acc acc' : list Detection * gmap string nat,
  for_boxes r bs acc = inr acc' ->
  exists new, fst acc' = fst acc ++ new /\ Forall2 (detection_of r) bs new /\
              (counted acc -> counted acc').
Proof.
  induction bs as [| b bs IH]; intros acc acc'; cbn [for_boxes].
  - intros [= <-]. exists []. rewrite app_nil_r. auto.
  - destruct (process_box r b acc) as [e | acc1] eqn:Hb; [discriminate |]; cbn [bindE].
    intros Hrest. apply process_box_spec in Hb as (d & Hd & Hrel & Hc).
    apply IH in Hrest as (new & Hnew & Hall & Hc').
    exists (d :: new). rewrite Hnew, Hd, <- app_assoc. auto.
Qed.

Lemma for_results_spec (rs : list (Results PILImage)) :
  forall acc acc' : list Detection * gmap string nat,
  for_results rs acc = inr acc' ->
  exists new, fst acc' = fst acc ++ new /\
              Forall2 (fun b d => exists r, In r rs /\ detection_of r b d)
                      (candidates rs) new /\
              (counted acc -> counted acc').
Proof.
  unfold candidates.
  induction rs as [| r rs IH]; intros acc acc'; cbn [for_results map concat].
  - intros [= <-]. exists []. rewrite app_nil_r. auto.
  - destruct (for_boxes r (boxes r) acc) as [e | acc1] eqn:Hb; [discriminate |]; cbn [bindE].
    intros Hrest. apply for_boxes_spec in Hb as (new1 & Hnew1 & Hall1 & Hc1).
    apply IH in Hrest as (new2 & Hnew2 & Hall2 & Hc2).
    exists (new1 ++ new2). rewrite Hnew2, Hnew1, <- app_assoc.
    split; [reflexivity |]. split; [| auto].
    apply Forall2_app.
    + eapply Forall2_impl; [exact Hall1 |]. intros b d H. exists r. split; [now left | exact H].
    + eapply Forall2_impl; [exact Hall2 |]. intros b d (r' & Hin & H).
      exists r'. split; [now right | exact H].
Qed.

Lemma count_label_zero (l : string) (ds : list Detection) :
  count_label l ds = 0%nat <-> l ∉ label <$> ds.
Proof.
  induction ds as [| d ds IH]; cbn [fmap list_fmap].
  - split; [intros _; apply not_elem_of_nil | reflexivity].
  - change (d :: ds) with ([d] ++ ds). rewrite count_label_app, not_elem_of_cons.
    unfold count_label at 1; cbn [List.filter].
    destruct (String.eqb_spec (label d) l) as [E | N]; cbn [length app].
    + split; [lia | intros [H _]; congruence].
    + rewrite Nat.add_0_l, IH. split; [intros H; split; [congruence | exact H] | tauto].
Qed.



Lemma candidates_retain (t : pyfloat) (rs : list (Results PILImage)) :
  candidates (map (retain t) rs) = kept t rs.
Proof.
  unfold kept, candidates. induction rs as [| r rs IH]; cbn [map concat]; [reflexivity |].
  now rewrite List.filter_app, IH.
Qed.


Lemma filter_length_mono {A : Type} (p q : A -> bool) (l : list A) :
  (forall x, p x = true -> q x = true) ->
  (length (List.filter p l) <= length (List.filter q l))%nat.
Proof.
  intros Hpq. induction l as [| x l IH]; cbn [List.filter]; [lia |].
  destruct (p x) eqn:Hp.
  - rewrite (Hpq x Hp). cbn [length]. lia.
  - destruct (q x); cbn [length]; lia.
Qed.

Lemma counted_nil : counted ([], ∅).
Proof. split; [apply tallied_nil | reflexivity]. Qed.

End Loops.

(** ** The paths of [detect_objects] *)

Section Paths.

Context `{RT : Runtime}.

Ltac world_fields :=
  cbn [model emit fs OUTPUT_DIR events set_fs MODEL_PATH CONFIDENCE_THRESHOLD_DEFAULT
       fst snd negb] in *.

Ltac unfold_handler :=
  unfold detect_objects, infer, save_image, call_fs, try_except, log, call, gets,
    raise, bind, ret in *;
  world_fields.

Lemma detect_objects_success (image : list Byte.byte) (t : pyfloat) (w w' : World)
    (r : Response) :
  detect_objects image t w = (inr r, w') ->
  exists mdl img results acc r0 a pil f',
    model w = Some mdl /\ threshold_in_range t = true /\
    read_image image = inr img /\ mdl img t = inr results /\
    for_results results ([], ∅) = inr acc /\
    index0 results = inr r0 /\ Results_plot r0 = inr a /\
    Image_fromarray a = inr pil /\
    Image_save pil (output_path w) (fs w) = (inr tt, f') /\
    r = MkResponse (fst acc) (snd acc) /\ JSONResponse r = inr r /\
    w' = with_run w f' [EvLog (InfoRunning t); EvInfer img t; EvSave (output_path w);
                        EvLog (InfoSaved (output_path w));
                        EvLog (InfoComplete (length (fst acc)))].
Proof.
  unfold_handler.
  destruct (model w) as [mdl |] eqn:Hm; [| discriminate].
  destruct (threshold_in_range t) eqn:Ht; world_fields; [| discriminate].
  destruct (read_image image) as [e | img] eqn:Hi; [discriminate |].
  world_fields. rewrite Hm.
  destruct (mdl img t) as [e | results] eqn:Hr; [discriminate |].
  destruct (for_results results ([], ∅)) as [e | acc] eqn:Hf; [discriminate |].
  destruct (index0 results) as [e | r0] eqn:H0; [discriminate |].
  destruct (Results_plot r0) as [e | a] eqn:Hp; [discriminate |].
  destruct (Image_fromarray a) as [e | pil] eqn:Ha; [discriminate |].
  world_fields. fold (output_path w).
  destruct (Image_save pil (output_path w) (fs w)) as [[e | []] f'] eqn:Hs; [discriminate |].
  world_fields.
  destruct (JSONResponse _) as [e | r'] eqn:Hj; [discriminate |].
  intros [= <- <-].
  exists mdl, img, results, acc, r0, a, pil, f'.
  assert (r' = MkResponse (fst acc) (snd acc)) as ->.
  { unfold JSONResponse in Hj. destruct (forallb _ _); congruence. }
  repeat (split; [assumption || reflexivity |]).
  unfold with_run, emit, set_fs; world_fields. f_equal.
  now rewrite <- !app_assoc.
Qed.

(** A response of status 400 or 503 is raised before anything is
    logged, inferred or saved. *)
Lemma detect_objects_rejected (image : list Byte.byte) (t : pyfloat) (w w' : World)
    (code : Z) (d : string) :
  detect_objects image t w = (inl (HTTPException code d), w') ->
  code = 400 \/ code = 503 ->
  w' = w /\
  (model w = None \/ threshold_in_range t = false \/
   exists e, read_image image = inl e).
Proof.
  unfold_handler.
  destruct (model w) as [mdl |] eqn:Hm; [| intros [= <- <- <-]; auto].
  destruct (threshold_in_range t) eqn:Ht; world_fields; [| intros [= <- <- <-]; auto].
  destruct (read_image image) as [e | img] eqn:Hi; [intros [= <- <- <-]; eauto |].
  world_fields. rewrite Hm.
  destruct (mdl img t) as [e | results]; [intros [= <- <- <-] [? | ?]; discriminate |].
  destruct (for_results results ([], ∅)) as [e | acc];
    [intros [= <- <- <-] [? | ?]; discriminate |].
  destruct (index0 results) as [e | r0]; [intros [= <- <- <-] [? | ?]; discriminate |].
  destruct (Results_plot r0) as [e | a]; [intros [= <- <- <-] [? | ?]; discriminate |].
  destruct (Image_fromarray a) as [e | pil]; [intros [= <- <- <-] [? | ?]; discriminate |].
  world_fields.
  destruct (Image_save pil _ (fs w)) as [[e | []] f'];
    [intros [= <- <- <-] [? | ?]; discriminate |].
  world_fields.
  destruct (JSONResponse _) as [e | r']; [intros [= <- <- <-] [? | ?]; discriminate |].
  discriminate.
Qed.


Lemma new_events_refl (w : World) : new_events w w = [].
Proof. unfold new_events. apply drop_all. Qed.

Lemma new_events_with_run (w : World) (f : FileSystem) (evs : list Event) :
  new_events w (with_run w f evs) = evs.
Proof. unfold new_events, with_run; cbn [events]. apply drop_app_length. Qed.

(** The range test on the exact values: not NaN, and between 0 and 1. *)
Lemma threshold_in_range_exact (t : pyfloat) :
  threshold_in_range t = true <->
  not_nan (sf t) = true /\ 0 <= scaled (sf t) <= 2 ^ 1074.
Proof.
  unfold threshold_in_range. rewrite andb_true_iff, !py_le_scaled.
  change (scaled (sf f_0_0)) with 0.
  replace (scaled (sf f_1_0)) with (2 ^ 1074).
  - change (not_nan (sf f_0_0)) with true. change (not_nan (sf f_1_0)) with true. tauto.
  - cbn [scaled sf f_1_0]. change (-52 + 1074) with 1022.
    change 4503599627370496 with (2 ^ 52). rewrite <- Z.pow_add_r by lia. reflexivity.
Qed.

(** ** The request pipeline *)

(** C1, as amended: while the model is loaded, a request whose threshold
    is outside [0.0, 1.0] (NaN included) fails with status 400, and the
    world is left as it was: nothing is logged and the model is not
    called.  The test [model is None] comes first: while the model is
    not loaded the same request fails with status 503 instead, again
    without calling the model. *)
Theorem threshold_out_of_range_rejected (image : list Byte.byte) (t : pyfloat)
    (w : World) :
  threshold_in_range t = false ->
  let (res, w') := detect_objects image t w in
  w' = w /\ List.filter is_infer (new_events w w') = [] /\
  res = match model w with
        | Some _ => inl (HTTPException 400
                           "confidence_threshold must be between 0.0 and 1.0")
        | None => inl (HTTPException 503 "Model not loaded")
        end.
Proof.
  intros Ht. unfold_handler.
  destruct (model w) as [mdl |]; [rewrite Ht |]; world_fields;
    rewrite new_events_refl; auto.
Qed.

(** C3, as amended: the health check answers [{"status": "ok"}] in every
    world, whether the model is loaded or not, and changes nothing. *)
Theorem health_check_always_ok (w : World) :
  health_check w = (inr (MkHealth "ok"), w).
Proof. reflexivity. Qed.

(** C9: a request that fails with status 400 or 503 leaves the file
    system as it was and adds no call of [save] to the events (it adds
    no event at all). *)
Theorem rejected_request_saves_nothing (image : list Byte.byte) (t : pyfloat)
    (w w' : World) (code : Z) (d : string) :
  detect_objects image t w = (inl (HTTPException code d), w') ->
  code = 400 \/ code = 503 ->
  fs w' = fs w /\ List.filter is_save (new_events w w') = [] /\ new_events w w' = [].
Proof.
  intros Hrun Hcode.
  destruct (detect_objects_rejected _ _ _ _ _ _ Hrun Hcode) as [-> _].
  now rewrite new_events_refl.
Qed.

(** C2, as amended: when the request reaches [save] and [save] raises
    [e], the request fails with status 500 and detail "Detection
    failed: " followed by [str(e)]; the error is logged after the call
    of [save], and no detection or summary is returned. *)
Theorem save_failure_fails_request (image : list Byte.byte) (t : pyfloat) (w : World)
    (mdl : YOLO) (img pil : PILImage) (results : list (Results PILImage))
    (acc : list Detection * gmap string nat) (r0 : Results PILImage) (a : ndarray)
    (e : pyexc) (f' : FileSystem) :
  model w = Some mdl -> threshold_in_range t = true ->
  read_image image = inr img -> mdl img t = inr results ->
  for_results results ([], ∅) = inr acc ->
  index0 results = inr r0 -> Results_plot r0 = inr a ->
  Image_fromarray a = inr pil ->
  Image_save pil (output_path w) (fs w) = (inl e, f') ->
  detect_objects image t w =
  (inl (HTTPException 500 ("Detection failed: " ++ str e)),
   with_run w f' [EvLog (InfoRunning t); EvInfer img t; EvSave (output_path w);
                  EvLog (ErrorDuringDetection (str e))]).
Proof.
  intros Hm Ht Hi Hr Hf H0 Hp Ha Hs. unfold_handler.
  rewrite Hm, Ht, Hi; world_fields. rewrite Hm, Hr, Hf, H0, Hp, Ha; world_fields.
  fold (output_path w). rewrite Hs; world_fields.
  f_equal. unfold with_run, emit, set_fs; world_fields. f_equal.
  now rewrite <- !app_assoc.
Qed.

Lemma detect_objects_keeps_globals (image : list Byte.byte) (t : pyfloat) (w : World) :
  let w' := snd (detect_objects image t w) in
  model w' = model w /\
  CONFIDENCE_THRESHOLD_DEFAULT w' = CONFIDENCE_THRESHOLD_DEFAULT w.
Proof.
  unfold_handler.
  destruct (model w) as [mdl |] eqn:Hm; [| auto].
  destruct (threshold_in_range t); world_fields; [| auto].
  destruct (read_image image) as [e | img]; [auto |].
  world_fields. rewrite Hm.
  destruct (mdl img t) as [e | results]; [auto |].
  destruct (for_results results ([], ∅)) as [e | acc]; [auto |].
  destruct (index0 results) as [e | r0]; [auto |].
  destruct (Results_plot r0) as [e | a]; [auto |].
  destruct (Image_fromarray a) as [e | pil]; [auto |].
  world_fields.
  destruct (Image_save pil _ (fs w)) as [[e | []] f']; world_fields; [auto |].
  destruct (JSONResponse _) as [e | r']; world_fields; auto.
Qed.

Lemma startup_event_keeps_default (w : World) :
  CONFIDENCE_THRESHOLD_DEFAULT (snd (startup_event w)) = CONFIDENCE_THRESHOLD_DEFAULT w.
Proof.
  unfold startup_event, try_except, call_fs, log, call, gets, raise, bind, set_model.
  world_fields.
  destruct (YOLO_load (MODEL_PATH w) (fs w)) as [e | m]; [reflexivity |].
  world_fields.
  destruct (Path_mkdir (OUTPUT_DIR w) (fs w)) as [[e | []] f']; reflexivity.
Qed.

Lemma serves_keeps_default (w w' : World) :
  serves w w' -> CONFIDENCE_THRESHOLD_DEFAULT w' = CONFIDENCE_THRESHOLD_DEFAULT w.
Proof.
  induction 1 as [w | w w1 w2 res _ IH Hrun | w w1 w2 res _ IH Hrun
                 | w w1 w2 form res _ IH Hrun].
  - reflexivity.
  - rewrite <- IH, <- (startup_event_keeps_default w1). now rewrite Hrun.
  - injection Hrun as _ <-. exact IH.
  - rewrite <- IH. unfold post_detect, bind, gets in Hrun.
    destruct (detect_objects_keeps_globals (image form)
                (default (CONFIDENCE_THRESHOLD_DEFAULT w1) (confidence_threshold form)) w1)
      as [_ H].
    rewrite Hrun in H. exact H.
Qed.

(** C8, as amended: the module reads the default threshold from the
    environment variable CONFIDENCE_THRESHOLD_DEFAULT when it is
    imported, with "0.25" when the variable is unset; in every world
    the application reaches from there, a request that omits the field
    runs [detect_objects] with that default.  When the variable is
    unset (and [float] reads "0.25" as 0.25) the default is 0.25. *)
Theorem omitted_threshold_is_configured_default (environ : gmap string string)
    (f : FileSystem) (w0 w : World) (form : DetectForm) :
  import_main environ f = inr w0 -> serves w0 w ->
  confidence_threshold form = None ->
  exists d,
    py_float (os_getenv environ "CONFIDENCE_THRESHOLD_DEFAULT" "0.25") = inr d /\
    post_detect form w = detect_objects (image form) d w /\
    (environ !! "CONFIDENCE_THRESHOLD_DEFAULT" = None ->
     py_float "0.25" = inr f_0_25 -> d = f_0_25).
Proof.
  intros Himp Hs Hform. unfold import_main in Himp.
  destruct (py_float (os_getenv environ "CONFIDENCE_THRESHOLD_DEFAULT" "0.25"))
    as [e | d] eqn:Hd; [discriminate |].
  cbn [bindE] in Himp. injection Himp as <-.
  apply serves_keeps_default in Hs. cbn [CONFIDENCE_THRESHOLD_DEFAULT] in Hs.
  exists d. split; [reflexivity |]. split.
  - unfold post_detect, bind, gets. now rewrite Hs, Hform.
  - intros Hunset H25. unfold os_getenv in Hd. rewrite Hunset in Hd.
    cbn [default] in Hd. congruence.
Qed.

(** What a successful request returns: the result of the loops over
    what the model returned for the decoded image. *)
Lemma detect_objects_returns (image : list Byte.byte) (t : pyfloat) (w w' : World)
    (r : Response) :
  detect_objects image t w = (inr r, w') ->
  exists mdl img results,
    model w = Some mdl /\ threshold_in_range t = true /\
    read_image image = inr img /\ mdl img t = inr results /\
    for_results results ([], ∅) = inr (detections r, summary r).
Proof.
  intros Hrun.
  apply detect_objects_success in Hrun
    as (mdl & img & results & acc & _ & _ & _ & _ & Hm & Ht & Hi & Hr & Hf & _ & _ & _ & _ & -> & _).
  exists mdl, img, results. cbn [detections summary].
  now rewrite <- surjective_pairing.
Qed.

Lemma detect_objects_counted (image : list Byte.byte) (t : pyfloat) (w w' : World)
    (r : Response) :
  detect_objects image t w = (inr r, w') -> counted (detections r, summary r).
Proof.
  intros Hrun. apply detect_objects_returns in Hrun as (_ & _ & results & _ & _ & _ & _ & Hf).
  apply for_results_spec in Hf as (_ & _ & _ & Hc). apply Hc, counted_nil.
Qed.

(** C5: in a success response, a label that is a key of the summary
    maps to the number of detections of that response with that label,
    whatever the world the request ran in. *)
Theorem summary_counts_labels (image : list Byte.byte) (t : pyfloat) (w w' : World)
    (r : Response) (l : string) (n : nat) :
  detect_objects image t w = (inr r, w') ->
  summary r !! l = Some n ->
  n = count_label l (detections r).
Proof.
  intros Hrun Hl. apply detect_objects_counted in Hrun as [Ht _].
  cbn [fst snd] in Ht. rewrite (Ht l) in Hl.
  destruct (count_label l (detections r)); congruence.
Qed.

(** C10: in a success response, the keys of the summary are exactly the
    labels of the detections, every count is at least 1, and the counts
    sum to the number of detections. *)
Theorem summary_keys_and_total (image : list Byte.byte) (t : pyfloat) (w w' : World)
    (r : Response) :
  detect_objects image t w = (inr r, w') ->
  dom (summary r) = list_to_set (label <$> detections r) /\
  (forall l n, summary r !! l = Some n -> (1 <= n)%nat) /\
  total (summary r) = length (detections r).
Proof.
  intros Hrun. apply detect_objects_counted in Hrun as [Ht Hs]. cbn [fst snd] in Ht, Hs.
  split; [| split; [| exact Hs]].
  - apply set_eq. intros l. rewrite elem_of_dom, elem_of_list_to_set, (Ht l).
    destruct (count_label l (detections r)) eqn:Hc.
    + apply count_label_zero in Hc. split; [intros [? ?]; discriminate | contradiction].
    + split; [intros _ | eauto].
      destruct (decide (l ∈ label <$> detections r)) as [Hin | Hout]; [exact Hin |].
      apply count_label_zero in Hout. congruence.
  - intros l n. rewrite (Ht l). destruct (count_label l (detections r)); intros [= <-]. lia.
Qed.

(** C7: the response of a successful request is a function of the
    model, the image bytes and the threshold.  Two successful runs on
    the same bytes and threshold, in worlds that hold the same model but
    may differ in everything else (files, earlier requests), return the
    same detections and summary; and a run leaves the model as it was. *)
Theorem detect_objects_deterministic (image : list Byte.byte) (t : pyfloat)
    (w1 w2 w1' w2' : World) (r1 r2 : Response) :
  model w1 = model w2 ->
  detect_objects image t w1 = (inr r1, w1') ->
  detect_objects image t w2 = (inr r2, w2') ->
  r1 = r2 /\ model w1' = model w1.
Proof.
  intros Hm H1 H2. split.
  - apply detect_objects_returns in H1 as (m1 & i1 & rs1 & Hm1 & _ & Hi1 & Hr1 & Hf1).
    apply detect_objects_returns in H2 as (m2 & i2 & rs2 & Hm2 & _ & Hi2 & Hr2 & Hf2).
    assert (m1 = m2) as -> by congruence. assert (i1 = i2) as -> by congruence.
    assert (rs1 = rs2) as -> by congruence.
    rewrite Hf1 in Hf2. injection Hf2 as Hd Hs.
    destruct r1, r2; cbn [detections summary] in *. congruence.
  - destruct (detect_objects_keeps_globals image t w1) as [H _]. now rewrite H1 in H.
Qed.

End Paths.

(** ** The pipeline over the Detector of the specification *)

Section WithDetector.

Context `{RT : Runtime}.

Variable forward : PILImage -> pyexc + list (Results PILImage).

Lemma detect_objects_kept (image : list Byte.byte) (t : pyfloat) (w w' : World)
    (r : Response) :
  model w = Some (spec_detector forward) ->
  detect_objects image t w = (inr r, w') ->
  exists img rs,
    threshold_in_range t = true /\
    read_image image = inr img /\ forward img = inr rs /\
    Forall2 (fun b d => exists res, detection_of res b d) (kept t rs) (detections r).
Proof.
  intros Hm Hrun.
  apply detect_objects_returns in Hrun as (mdl & img & results & Hm' & Ht & Hi & Hr & Hf).
  rewrite Hm in Hm'. injection Hm' as <-. unfold spec_detector in Hr.
  destruct (forward img) as [e | rs] eqn:Hfw; [discriminate |].
  cbn [bindE] in Hr. injection Hr as <-.
  exists img, rs. repeat (split; [assumption || reflexivity |]).
  apply for_results_spec in Hf as (new & Hnew & Hall & _).
  cbn [fst app] in Hnew. subst new. rewrite candidates_retain in Hall.
  eapply Forall2_impl; [exact Hall |]. intros b d (res & _ & H). now exists res.
Qed.


(** C6: over the Detector of the specification, for one image and one
    forward pass, a run at threshold [t1] returns at least as many
    detections as a run at a threshold [t2 >= t1]. *)
Theorem detections_antitone_in_threshold (image : list Byte.byte) (t1 t2 : pyfloat)
    (w1 w2 w1' w2' : World) (r1 r2 : Response) :
  model w1 = Some (spec_detector forward) ->
  model w2 = Some (spec_detector forward) ->
  py_le t1 t2 = true ->
  detect_objects image t1 w1 = (inr r1, w1') ->
  detect_objects image t2 w2 = (inr r2, w2') ->
  (length (detections r2) <= length (detections r1))%nat.
Proof.
  intros Hm1 Hm2 Hle H1 H2.
  destruct (detect_objects_kept _ _ _ _ _ Hm1 H1) as (i1 & rs1 & _ & Hi1 & Hf1 & Hall1).
  destruct (detect_objects_kept _ _ _ _ _ Hm2 H2) as (i2 & rs2 & _ & Hi2 & Hf2 & Hall2).
  assert (i1 = i2) as -> by congruence. assert (rs1 = rs2) as -> by congruence.
  rewrite <- (Forall2_length _ _ _ Hall1), <- (Forall2_length _ _ _ Hall2).
  unfold kept. apply filter_length_mono. intros b Hb. exact (py_le_trans _ _ _ Hle Hb).
Qed.

End WithDetector.

(** ** The properties at work on the small instance *)

Lemma threshold_out_of_range_rejected_witness :
  threshold_in_range f_2_0 = false /\
  let (res, w') := Demo.run f_2_0 true in
  w' = Demo.world (Some Demo.detector) true /\
  List.filter is_infer (new_events (Demo.world (Some Demo.detector) true) w') = [] /\
  res = inl (HTTPException 400 "confidence_threshold must be between 0.0 and 1.0").
Proof.
  split; [reflexivity |].
  apply (@threshold_out_of_range_rejected Demo.rt Demo.png f_2_0
           (Demo.world (Some Demo.detector) true)).
  reflexivity.
Defined.

(** C1 as stated fails: with the model not loaded, a threshold of 2.0
    is answered with status 503, not 400. *)
Lemma threshold_checked_first_counterexample :
  threshold_in_range f_2_0 = false /\
  fst (@detect_objects Demo.rt Demo.png f_2_0 (Demo.world None true)) =
    inl (HTTPException 503 "Model not loaded") /\
  ~ (exists d, fst (@detect_objects Demo.rt Demo.png f_2_0 (Demo.world None true)) =
               inl (HTTPException 400 d)).
Proof.
  split; [reflexivity |]. split; [reflexivity |].
  intros [d H]. vm_compute in H. discriminate H.
Qed.

(** C2 as stated fails: the output directory cannot be written, and
    the request that reached [save] is answered with status 500. *)
Lemma save_failure_tolerated_counterexample :
  List.filter is_save
    (new_events (Demo.world (Some Demo.detector) false) (snd (Demo.run f_0_5 false))) =
    [EvSave "/app/output/last_annotated.jpg"] /\
  fst (Demo.run f_0_5 false) =
    inl (HTTPException 500
           "Detection failed: [Errno 13] Permission denied: '/app/output/last_annotated.jpg'") /\
  ~ (exists r, fst (Demo.run f_0_5 false) = inr r).
Proof.
  split; [reflexivity |]. split; [reflexivity |].
  intros [r H]. vm_compute in H. discriminate H.
Qed.

Lemma save_failure_fails_request_witness :
  let w := Demo.world (Some Demo.detector) false in
  threshold_in_range f_0_5 = true /\
  @Image_save Demo.rt (Demo.annotated f_0_5) (output_path w) (fs w) =
    (inl (Demo.denied (output_path w)), fs w) /\
  @detect_objects Demo.rt Demo.png f_0_5 w =
    (inl (HTTPException 500
            ("Detection failed: " ++ str (Demo.denied (output_path w)))),
     with_run w (fs w)
       [EvLog (InfoRunning f_0_5); @EvInfer Demo.rt Demo.decoded f_0_5;
        EvSave (output_path w);
        EvLog (ErrorDuringDetection (str (Demo.denied (output_path w))))]).
Proof.
  intros w. split; [reflexivity |]. split; [reflexivity |].
  eapply (@save_failure_fails_request Demo.rt Demo.png f_0_5 w Demo.detector
            Demo.decoded); reflexivity.
Defined.

(** C3 as stated fails: with the model not loaded, the health check
    still answers "ok". *)
Lemma health_check_reports_model_counterexample :
  model (Demo.world None true) = None /\
  fst (@health_check Demo.rt (Demo.world None true)) = inr (MkHealth "ok") /\
  ~ (model (Demo.world None true) = None ->
     fst (@health_check Demo.rt (Demo.world None true)) <> inr (MkHealth "ok")).
Proof.
  split; [reflexivity |]. split; [reflexivity |].
  intros H. now apply H.
Qed.

Lemma rejected_request_saves_nothing_witness :
  let w := Demo.world (Some Demo.detector) true in
  @detect_objects Demo.rt [] f_0_5 w =
    (inl (HTTPException 400 "Invalid image file: cannot identify image file"), w) /\
  (400 = 400 \/ 400 = 503) /\
  fs w = fs w /\ List.filter is_save (new_events w w) = [] /\ new_events w w = [].
Proof.
  intros w. split; [reflexivity |]. split; [left; reflexivity |].
  apply (@rejected_request_saves_nothing Demo.rt [] f_0_5 w w 400
           "Invalid image file: cannot identify image file").
  - reflexivity.
  - left; reflexivity.
Defined.

(** A run that returned is the pair of what it returned and the world
    it left. *)
Lemma returned_pair {W : Type} (x : (exn + Response) * W) (r : Response) :
  fst x = inr r -> x = (inr r, snd x).
Proof. destruct x as [res w]; cbn [fst snd]. now intros ->. Qed.

Lemma summary_counts_labels_witness :
  fst (Demo.run f_0_25 true) = inr (Demo.response f_0_25) /\
  summary (Demo.response f_0_25) !! "person" = Some 2%nat /\
  2%nat = count_label "person" (detections (Demo.response f_0_25)).
Proof.
  assert (H : fst (Demo.run f_0_25 true) = inr (Demo.response f_0_25))
    by (vm_compute; reflexivity).
  split; [exact H |]. split; [vm_compute; reflexivity |].
  apply (@summary_counts_labels Demo.rt Demo.png f_0_25
           (Demo.world (Some Demo.detector) true) (Demo.after f_0_25)
           (Demo.response f_0_25) "person" 2%nat).
  - exact (returned_pair _ _ H).
  - vm_compute; reflexivity.
Defined.

Lemma summary_keys_and_total_witness :
  fst (Demo.run f_0_25 true) = inr (Demo.response f_0_25) /\
  dom (summary (Demo.response f_0_25)) =
    list_to_set (label <$> detections (Demo.response f_0_25)) /\
  (forall l n, summary (Demo.response f_0_25) !! l = Some n -> (1 <= n)%nat) /\
  total (summary (Demo.response f_0_25)) = length (detections (Demo.response f_0_25)).
Proof.
  assert (H : fst (Demo.run f_0_25 true) = inr (Demo.response f_0_25))
    by (vm_compute; reflexivity).
  split; [exact H |].
  apply (@summary_keys_and_total Demo.rt Demo.png f_0_25
           (Demo.world (Some Demo.detector) true) (Demo.after f_0_25)).
  exact (returned_pair _ _ H).
Defined.

Lemma detect_objects_deterministic_witness :
  model (Demo.world (Some Demo.detector) true) = model (Demo.after f_0_25) /\
  fst (Demo.run f_0_5 true) = inr (Demo.response f_0_5) /\
  fst (Demo.again f_0_25 f_0_5) = inr (Demo.response_again f_0_25 f_0_5) /\
  Demo.response f_0_5 = Demo.response_again f_0_25 f_0_5 /\
  model (Demo.after f_0_5) = model (Demo.world (Some Demo.detector) true).
Proof.
  assert (Hm : model (Demo.world (Some Demo.detector) true) = model (Demo.after f_0_25))
    by reflexivity.
  assert (H1 : fst (Demo.run f_0_5 true) = inr (Demo.response f_0_5))
    by (vm_compute; reflexivity).
  assert (H2 : fst (Demo.again f_0_25 f_0_5) = inr (Demo.response_again f_0_25 f_0_5))
    by (vm_compute; reflexivity).
  split; [exact Hm |]. split; [exact H1 |]. split; [exact H2 |].
  apply (@detect_objects_deterministic Demo.rt Demo.png f_0_5
           (Demo.world (Some Demo.detector) true) (Demo.after f_0_25)
           (Demo.after f_0_5) (snd (Demo.again f_0_25 f_0_5))
           (Demo.response f_0_5) (Demo.response_again f_0_25 f_0_5)).
  - exact Hm.
  - exact (returned_pair _ _ H1).
  - exact (returned_pair _ _ H2).
Defined.



Lemma detections_antitone_in_threshold_witness :
  py_le f_0_25 f_0_5 = true /\
  fst (Demo.run f_0_25 true) = inr (Demo.response f_0_25) /\
  fst (Demo.run f_0_5 true) = inr (Demo.response f_0_5) /\
  (length (detections (Demo.response f_0_5)) <=
   length (detections (Demo.response f_0_25)))%nat.
Proof.
  assert (H1 : fst (Demo.run f_0_25 true) = inr (Demo.response f_0_25))
    by (vm_compute; reflexivity).
  assert (H2 : fst (Demo.run f_0_5 true) = inr (Demo.response f_0_5))
    by (vm_compute; reflexivity).
  split; [reflexivity |]. split; [exact H1 |]. split; [exact H2 |].
  apply (@detections_antitone_in_threshold Demo.rt Demo.forward Demo.png f_0_25 f_0_5
           (Demo.world (Some Demo.detector) true) (Demo.world (Some Demo.detector) true)
           (Demo.after f_0_25) (Demo.after f_0_5)).
  - reflexivity.
  - reflexivity.
  - reflexivity.
  - exact (returned_pair _ _ H1).
  - exact (returned_pair _ _ H2).
Defined.

Lemma omitted_threshold_is_configured_default_witness :
  @import_main Demo.rt ∅ (Demo.MkFiles true ∅) = inr (Demo.imported ∅) /\
  serves (Demo.imported ∅) (Demo.started ∅) /\
  exists d,
    @py_float Demo.rt (os_getenv ∅ "CONFIDENCE_THRESHOLD_DEFAULT" "0.25") = inr d /\
    @post_detect Demo.rt (MkForm Demo.png None) (Demo.started ∅) =
      @detect_objects Demo.rt Demo.png d (Demo.started ∅) /\
    ((∅ : gmap string string) !! "CONFIDENCE_THRESHOLD_DEFAULT" = None ->
     @py_float Demo.rt "0.25" = inr f_0_25 -> d = f_0_25).
Proof.
  assert (Hs : serves (Demo.imported ∅) (Demo.started ∅)).
  { apply (serves_startup _ (Demo.imported ∅) _
             (fst (@startup_event Demo.rt (Demo.imported ∅))) (serves_here _)).
    reflexivity. }
  split; [reflexivity |]. split; [exact Hs |].
  apply (@omitted_threshold_is_configured_default Demo.rt ∅ (Demo.MkFiles true ∅)
           (Demo.imported ∅) (Demo.started ∅) (MkForm Demo.png None)).
  - reflexivity.
  - exact Hs.
  - reflexivity.
Defined.

(** C8 as stated fails: started with CONFIDENCE_THRESHOLD_DEFAULT=0.5,
    a request that omits the field runs the model at 0.5, and returns
    two of the three detections a run at 0.25 returns. *)
Lemma omitted_threshold_is_0_25_counterexample :
  let w := Demo.started Demo.environ_0_5 in
  let run := @post_detect Demo.rt (MkForm Demo.png None) w in
  List.filter is_infer (new_events w (snd run)) = [@EvInfer Demo.rt Demo.decoded f_0_5] /\
  f_0_5 <> f_0_25 /\
  fst run <> fst (@detect_objects Demo.rt Demo.png f_0_25 w).
Proof.
  split; [reflexivity |]. split.
  - intros H. apply (f_equal sf) in H. discriminate H.
  - intros H. vm_compute in H. discriminate H.
Qed.

(** * Further properties of the handlers *)

Section Outcomes.

Context `{RT : Runtime}.

Lemma with_run_nil (w : World) : with_run w (fs w) [] = w.
Proof. destruct w. unfold with_run; cbn. now rewrite app_nil_r. Qed.

Ltac fields :=
  cbn [model emit fs OUTPUT_DIR events set_fs MODEL_PATH CONFIDENCE_THRESHOLD_DEFAULT
       fst snd negb bindE] in *.

Ltac close_run :=
  unfold with_run, emit, set_fs; fields; f_equal; now rewrite <- ?app_assoc.

(** Every run of [detect_objects] follows one of the paths of
    [outcome]. *)
Lemma detect_objects_outcome (image : list Byte.byte) (t : pyfloat) (w : World) :
  exists f evs,
    outcome image t w (fst (detect_objects image t w)) f evs /\
    snd (detect_objects image t w) = with_run w f evs.
Proof.
  unfold detect_objects, infer, save_image, call_fs, try_except, log, call, gets,
    raise, bind, ret; fields.
  destruct (model w) as [mdl |] eqn:Hm.
  2:{ exists (fs w), []. split; [now constructor | now rewrite with_run_nil]. }
  destruct (threshold_in_range t) eqn:Ht; fields.
  2:{ exists (fs w), []. split; [now apply (out_bad_threshold _ _ _ mdl) |
                                 now rewrite with_run_nil]. }
  destruct (read_image image) as [e | img] eqn:Hi; fields.
  { exists (fs w), []. split; [now apply (out_bad_image _ _ _ mdl) |
                              now rewrite with_run_nil]. }
  rewrite Hm.
  assert (Hb : forall e, before_save mdl img t = inl e ->
    exists f evs,
      outcome image t w (inl (HTTPException 500 ("Detection failed: " ++ str e))) f evs /\
      with_run w (fs w)
        [EvLog (InfoRunning t); EvInfer img t; EvLog (ErrorDuringDetection (str e))] =
      with_run w f evs).
  { intros e He. eexists _, _. split; [now apply (out_failed_before_save _ _ _ mdl img) |].
    reflexivity. }
  unfold before_save in Hb.
  destruct (mdl img t) as [e | results] eqn:Hr; fields.
  { destruct (Hb e eq_refl) as (f & evs & Ho & Hw). exists f, evs.
    split; [exact Ho |]. rewrite <- Hw. close_run. }
  destruct (for_results results ([], ∅)) as [e | acc] eqn:Hf; fields.
  { destruct (Hb e eq_refl) as (f & evs & Ho & Hw). exists f, evs.
    split; [exact Ho |]. rewrite <- Hw. close_run. }
  destruct (index0 results) as [e | r0] eqn:H0; fields.
  { destruct (Hb e eq_refl) as (f & evs & Ho & Hw). exists f, evs.
    split; [exact Ho |]. rewrite <- Hw. close_run. }
  destruct (Results_plot r0) as [e | a] eqn:Hp; fields.
  { destruct (Hb e eq_refl) as (f & evs & Ho & Hw). exists f, evs.
    split; [exact Ho |]. rewrite <- Hw. close_run. }
  destruct (Image_fromarray a) as [e | pil] eqn:Ha; fields.
  { destruct (Hb e eq_refl) as (f & evs & Ho & Hw). exists f, evs.
    split; [exact Ho |]. rewrite <- Hw. close_run. }
  clear Hb.
  assert (Hbs : before_save mdl img t = inr (results, acc, pil)).
  { unfold before_save. rewrite Hr; fields. rewrite Hf; fields. rewrite H0; fields.
    rewrite Hp; fields. now rewrite Ha. }
  fold (output_path w).
  destruct (Image_save pil (output_path w) (fs w)) as [[e | []] f] eqn:Hs; fields.
  { eexists _, _. split; [exact (out_failed_save _ _ _ mdl img pil results acc e f
                                   Hm Ht Hi Hbs Hs) |]. close_run. }
  destruct (JSONResponse (MkResponse (fst acc) (snd acc))) as [e | r] eqn:Hj; fields.
  { eexists _, _. split; [exact (out_failed_render _ _ _ mdl img pil results acc e f
                                   Hm Ht Hi Hbs Hs Hj) |]. close_run. }
  assert (r = MkResponse (fst acc) (snd acc)) as ->.
  { unfold JSONResponse in Hj. destruct (forallb _ _); congruence. }
  eexists _, _. split; [exact (out_success _ _ _ mdl img pil results acc f
                                 Hm Ht Hi Hbs Hs Hj) |]. close_run.
Qed.

Lemma status_of_outcome (image : list Byte.byte) (t : pyfloat) (w : World)
    (res : exn + Response) (f : FileSystem) (evs : list Event) :
  outcome image t w res f evs ->
  exists code, status_of res = Some code /\
               (code = 200 \/ code = 400 \/ code = 500 \/ code = 503).
Proof. destruct 1; cbn [status_of]; eexists; split; try reflexivity; auto. Qed.

(** X1: [detect_objects] lets no library exception escape: every run
    ends in a response (200) or in an [HTTPException] of status 400,
    500 or 503. *)
Theorem detect_objects_answers_with_status (image : list Byte.byte) (t : pyfloat)
    (w : World) :
  exists code,
    status_of (fst (detect_objects image t w)) = Some code /\
    (code = 200 \/ code = 400 \/ code = 500 \/ code = 503).
Proof.
  destruct (detect_objects_outcome image t w) as (f & evs & Ho & _).
  exact (status_of_outcome _ _ _ _ _ _ Ho).
Qed.

(** X2: the answer is 503 exactly when the model is not loaded, whatever
    the image and the threshold; and then the world is left as it
    was. *)
Theorem unavailable_iff_model_not_loaded (image : list Byte.byte) (t : pyfloat)
    (w : World) :
  (status_of (fst (detect_objects image t w)) = Some 503 <-> model w = None) /\
  (model w = None -> snd (detect_objects image t w) = w).
Proof.
  destruct (detect_objects_outcome image t w) as (f & evs & Ho & Hw).
  rewrite Hw. clear Hw.
  destruct Ho; cbn [status_of]; (split; [split |]); intros; try congruence;
    try discriminate; try apply with_run_nil.
Qed.

(** X3: while the model is loaded, the answer is 400 exactly when the
    threshold fails the range test or the upload cannot be read as an
    image. *)
Theorem bad_request_iff (image : list Byte.byte) (t : pyfloat) (w : World)
    (mdl : YOLO) :
  model w = Some mdl ->
  (status_of (fst (detect_objects image t w)) = Some 400 <->
   threshold_in_range t = false \/ exists e, read_image image = inl e).
Proof.
  intros Hm. destruct (detect_objects_outcome image t w) as (f & evs & Ho & _).
  destruct Ho; cbn [status_of]; split; intros Hgoal; try congruence; try discriminate;
    eauto; destruct Hgoal as [Hgoal | [e' Hgoal]]; congruence.
Qed.

(** X4: while the model is loaded, the threshold is refused with its
    own message exactly when it is NaN or its exact value lies outside
    [0, 1]. *)
Theorem threshold_refused_exactly (image : list Byte.byte) (t : pyfloat) (w : World)
    (mdl : YOLO) :
  model w = Some mdl ->
  (fst (detect_objects image t w) =
     inl (HTTPException 400 "confidence_threshold must be between 0.0 and 1.0") <->
   ~ (not_nan (sf t) = true /\ 0 <= scaled (sf t) <= 2 ^ 1074)).
Proof.
  intros Hm. rewrite <- threshold_in_range_exact.
  destruct (detect_objects_outcome image t w) as (f & evs & Ho & _).
  destruct Ho; split; intros Hgoal; try congruence; try discriminate;
    try (exfalso; apply Hgoal; assumption).
Qed.

(** X5: an upload that cannot be read as an image is answered with 400
    and the library's message, before anything is logged: the model is
    not called and nothing is saved. *)
Theorem undecodable_image_rejected (image : list Byte.byte) (t : pyfloat) (w : World)
    (mdl : YOLO) (e : pyexc) :
  model w = Some mdl -> threshold_in_range t = true -> read_image image = inl e ->
  detect_objects image t w =
  (inl (HTTPException 400 ("Invalid image file: " ++ str e)), w).
Proof.
  intros Hm Ht Hi.
  destruct (detect_objects_outcome image t w) as (f & evs & Ho & Hw).
  rewrite (surjective_pairing (detect_objects image t w)), Hw.
  destruct Ho; try congruence.
  rewrite with_run_nil. repeat f_equal. congruence.
Qed.

Lemma before_save_results (mdl : YOLO) (img pil : PILImage) (t : pyfloat)
    (results : list (Results PILImage)) (acc : list Detection * gmap string nat) :
  before_save mdl img t = inr (results, acc, pil) ->
  mdl img t = inr results /\ for_results results ([], ∅) = inr acc /\
  exists r0 a, index0 results = inr r0 /\ Results_plot r0 = inr a /\
               Image_fromarray a = inr pil.
Proof.
  unfold before_save.
  destruct (mdl img t) as [e | rs]; [discriminate |]; cbn [bindE].
  destruct (for_results rs ([], ∅)) as [e | acc0] eqn:Hf; [discriminate |]; cbn [bindE].
  destruct (index0 rs) as [e | r0] eqn:H0; [discriminate |]; cbn [bindE].
  destruct (Results_plot r0) as [e | a] eqn:Hp; [discriminate |]; cbn [bindE].
  destruct (Image_fromarray a) as [e | p] eqn:Ha; [discriminate |]; cbn [bindE].
  intros [= <- <- <-]. split; [reflexivity |]. split; [exact Hf |].
  exists r0, a. auto.
Qed.


(** X7: no step is retried.  In every run the model is called at most
    once and [save] at most once, and [save] is called only after the
    model was; in a run that answers 200 each is called exactly once,
    [save] on the path [OUTPUT_DIR/last_annotated.jpg]. *)
Theorem each_step_at_most_once (image : list Byte.byte) (t : pyfloat) (w : World) :
  let run := detect_objects image t w in
  let evs := new_events w (snd run) in
  (length (List.filter is_infer evs) <= 1)%nat /\
  (length (List.filter is_save evs) <= 1)%nat /\
  (List.filter is_save evs <> [] -> List.filter is_infer evs <> []) /\
  (status_of (fst run) = Some 200 ->
   length (List.filter is_infer evs) = 1%nat /\
   List.filter is_save evs = [EvSave (output_path w)]).
Proof.
  cbv zeta. destruct (detect_objects_outcome image t w) as (f & evs & Ho & Hw).
  rewrite Hw, new_events_with_run. clear Hw.
  destruct Ho; cbn [List.filter is_infer is_save length status_of];
    repeat split; try lia; try congruence; try discriminate.
Qed.

(** X8: [detect_objects] writes to the file system through [save]
    only: a run that did not call [save] leaves every file as it
    was. *)
Theorem file_system_changes_only_through_save (image : list Byte.byte) (t : pyfloat)
    (w : World) :
  let w' := snd (detect_objects image t w) in
  List.filter is_save (new_events w w') = [] -> fs w' = fs w.
Proof.
  cbv zeta. destruct (detect_objects_outcome image t w) as (f & evs & Ho & Hw).
  rewrite Hw, new_events_with_run. clear Hw. unfold with_run; cbn [fs].
  destruct Ho; cbn [List.filter is_save]; intros Hnone; try reflexivity; discriminate.
Qed.

Lemma run_fails_before_save (image : list Byte.byte) (t : pyfloat) (w : World)
    (mdl : YOLO) (img : PILImage) (e : pyexc) :
  model w = Some mdl -> threshold_in_range t = true -> read_image image = inr img ->
  before_save mdl img t = inl e ->
  detect_objects image t w =
  (inl (HTTPException 500 ("Detection failed: " ++ str e)),
   with_run w (fs w)
     [EvLog (InfoRunning t); EvInfer img t; EvLog (ErrorDuringDetection (str e))]).
Proof.
  intros Hm Ht Hi Hb.
  destruct (detect_objects_outcome image t w) as (f & evs & Ho & Hw).
  rewrite (surjective_pairing (detect_objects image t w)), Hw.
  destruct Ho; congruence.
Qed.

(** X9: a failure of the model, of the loops, of [results[0]], of
    [plot] or of [fromarray] is answered with 500 and the exception's
    text; the model was called once, the error is the last thing
    logged, and the annotated image is neither saved nor touched. *)
Theorem failure_before_save (image : list Byte.byte) (t : pyfloat) (w : World)
    (mdl : YOLO) (img : PILImage) (e : pyexc) :
  model w = Some mdl -> threshold_in_range t = true -> read_image image = inr img ->
  before_save mdl img t = inl e ->
  let run := detect_objects image t w in
  fst run = inl (HTTPException 500 ("Detection failed: " ++ str e)) /\
  fs (snd run) = fs w /\
  List.filter is_infer (new_events w (snd run)) = [EvInfer img t] /\
  List.filter is_save (new_events w (snd run)) = [] /\
  last (events (snd run)) = Some (EvLog (ErrorDuringDetection (str e))).
Proof.
  intros Hm Ht Hi Hb. cbv zeta.
  rewrite (run_fails_before_save image t w mdl img e Hm Ht Hi Hb).
  cbn [fst snd]. rewrite new_events_with_run. unfold with_run; cbn [fs events].
  repeat split.
  change [EvLog (InfoRunning t); EvInfer img t; EvLog (ErrorDuringDetection (str e))]
    with ([EvLog (InfoRunning t); EvInfer img t] ++ [EvLog (ErrorDuringDetection (str e))]).
  now rewrite app_assoc, last_snoc.
Qed.

(** X10: a model that returns an empty list of results makes
    [results[0]] raise: the request is answered with 500 and
    "list index out of range", and nothing is saved. *)
Theorem empty_results_list_fails (image : list Byte.byte) (t : pyfloat) (w : World)
    (mdl : YOLO) (img : PILImage) :
  model w = Some mdl -> threshold_in_range t = true -> read_image image = inr img ->
  mdl img t = inr [] ->
  let run := detect_objects image t w in
  fst run = inl (HTTPException 500 "Detection failed: list index out of range") /\
  fs (snd run) = fs w /\ List.filter is_save (new_events w (snd run)) = [].
Proof.
  intros Hm Ht Hi Hr.
  assert (Hb : before_save mdl img t = inl (PyExc "IndexError" "list index out of range")).
  { unfold before_save. rewrite Hr. reflexivity. }
  cbv zeta. rewrite (run_fails_before_save image t w mdl img _ Hm Ht Hi Hb).
  cbn [fst snd]. rewrite new_events_with_run. repeat split.
Qed.

Lemma for_results_no_boxes (rs : list (Results PILImage))
    (acc : list Detection * gmap string nat) :
  Forall (fun r => boxes r = []) rs -> for_results rs acc = inr acc.
Proof.
  induction 1 as [| r rs Hr _ IH]; cbn [for_results]; [reflexivity |].
  rewrite Hr. exact IH.
Qed.

(** X11: when the model finds no object (results without boxes) and
    the overlay can be drawn and saved, the request succeeds with no
    detection and an empty summary, and the annotated image is still
    saved. *)
Theorem no_objects_detected_succeeds (image : list Byte.byte) (t : pyfloat) (w : World)
    (mdl : YOLO) (img pil : PILImage) (r0 : Results PILImage)
    (rs : list (Results PILImage)) (a : ndarray) (f : FileSystem) :
  model w = Some mdl -> threshold_in_range t = true -> read_image image = inr img ->
  mdl img t = inr (r0 :: rs) -> Forall (fun r => boxes r = []) (r0 :: rs) ->
  Results_plot r0 = inr a -> Image_fromarray a = inr pil ->
  Image_save pil (output_path w) (fs w) = (inr tt, f) ->
  detect_objects image t w =
  (inr (MkResponse [] ∅),
   with_run w f [EvLog (InfoRunning t); EvInfer img t; EvSave (output_path w);
                 EvLog (InfoSaved (output_path w)); EvLog (InfoComplete 0)]).
Proof.
  intros Hm Ht Hi Hr Hnone Hp Ha Hs.
  assert (Hb : before_save mdl img t = inr (r0 :: rs, ([], ∅), pil)).
  { unfold before_save. rewrite Hr; cbn [bindE].
    rewrite (for_results_no_boxes _ _ Hnone); cbn [bindE index0].
    rewrite Hp; cbn [bindE]. now rewrite Ha. }
  destruct (detect_objects_outcome image t w) as (f' & evs & Ho & Hw).
  rewrite (surjective_pairing (detect_objects image t w)), Hw.
  destruct Ho; try congruence;
    assert (img0 = img) as -> by congruence; assert (mdl0 = mdl) as -> by congruence;
    match goal with
    | Hb' : before_save mdl img t = inr _ |- _ =>
        rewrite Hb in Hb'; injection Hb' as <- <- <-
    end;
    try (cbn [fst snd JSONResponse detections forallb] in *; discriminate).
  cbn [fst snd length]. congruence.
Qed.

Lemma py_int_finite (x : pyfloat) :
  (exists z, py_int x = inr z) <-> is_finite x = true.
Proof.
  unfold py_int, is_finite, trunc_sf. destruct (sf x); split; intros H;
    try reflexivity; try discriminate; eauto; destruct H; discriminate.
Qed.

Lemma process_box_succeeds_iff (r : Results PILImage) (b : Boxes)
    (acc : list Detection * gmap string nat) :
  (exists acc', process_box r b acc = inr acc') <-> box_processable r b.
Proof.
  unfold process_box, box_processable. destruct acc as [ds c].
  destruct (xyxy b) as [[[x_min y_min] x_max] y_max].
  rewrite <- !py_int_finite. split.
  - intros [acc' H].
    destruct (py_int (cls b)) as [e | class_id]; [discriminate |]; cbn [bindE] in H.
    destruct (names r !! class_id) as [lbl |] eqn:Hn; [| discriminate]; cbn [bindE] in H.
    destruct (py_int x_min) as [e | x0]; [discriminate |]; cbn [bindE] in H.
    destruct (py_int y_min) as [e | y0]; [discriminate |]; cbn [bindE] in H.
    destruct (py_int x_max) as [e | x1]; [discriminate |]; cbn [bindE] in H.
    destruct (py_int y_max) as [e | y1]; [discriminate |].
    repeat split; eauto.
  - intros ((class_id & -> & [lbl Hl]) & [x0 ->] & [y0 ->] & [x1 ->] & [y1 ->]).
    cbn [bindE]. rewrite Hl. cbn [bindE]. eauto.
Qed.

Lemma for_boxes_succeeds_iff (r : Results PILImage) (bs : list Boxes) :
  forall acc : list Detection * gmap string nat,
  (exists acc', for_boxes r bs acc = inr acc') <-> Forall (box_processable r) bs.
Proof.
  induction bs as [| b bs IH]; intros acc; cbn [for_boxes].
  - split; [constructor | eauto].
  - rewrite Forall_cons, <- (process_box_succeeds_iff r b acc).
    destruct (process_box r b acc) as [e | acc1]; cbn [bindE].
    + split; [intros [? ?]; discriminate | intros [[? ?] _]; discriminate].
    + rewrite (IH acc1). split; [intros H; split; eauto | tauto].
Qed.

Lemma for_results_succeeds_iff (rs : list (Results PILImage)) :
  forall acc : list Detection * gmap string nat,
  (exists acc', for_results rs acc = inr acc') <->
  Forall (fun r => Forall (box_processable r) (boxes r)) rs.
Proof.
  induction rs as [| r rs IH]; intros acc; cbn [for_results].
  - split; [constructor | eauto].
  - rewrite Forall_cons, <- (for_boxes_succeeds_iff r (boxes r) acc).
    destruct (for_boxes r (boxes r) acc) as [e | acc1]; cbn [bindE].
    + split; [intros [? ?]; discriminate | intros [[? ?] _]; discriminate].
    + rewrite (IH acc1). split; [intros H; split; eauto | tauto].
Qed.

(** X12: the loops raise exactly when the model returned a box they
    cannot turn into a record: a class id that is NaN, infinite or
    missing from [names], or a corner that is NaN or infinite.  Such a
    request is answered with 500, and nothing is saved. *)
Theorem unprocessable_box_fails_request (image : list Byte.byte) (t : pyfloat)
    (w : World) (mdl : YOLO) (img : PILImage) (results : list (Results PILImage)) :
  model w = Some mdl -> threshold_in_range t = true -> read_image image = inr img ->
  mdl img t = inr results ->
  let run := detect_objects image t w in
  let all_processable :=
    Forall (fun r => Forall (box_processable r) (boxes r)) results in
  ((exists e, for_results results ([], ∅) = inl e) <-> ~ all_processable) /\
  (~ all_processable ->
   status_of (fst run) = Some 500 /\ fs (snd run) = fs w /\
   List.filter is_save (new_events w (snd run)) = []).
Proof.
  intros Hm Ht Hi Hr. cbv zeta.
  pose proof (for_results_succeeds_iff results ([], ∅)) as Hiff.
  assert (Hfail : ~ Forall (fun r => Forall (box_processable r) (boxes r)) results ->
                  exists e, for_results results ([], ∅) = inl e).
  { intros Hn. destruct (for_results results ([], ∅)) as [e | acc]; [eauto |].
    exfalso. apply Hn, Hiff. eauto. }
  split.
  - split; [| exact Hfail]. intros [e He] Hall. apply Hiff in Hall as [acc Hacc].
    congruence.
  - intros Hn. destruct (Hfail Hn) as [e He].
    assert (Hb : before_save mdl img t = inl e).
    { unfold before_save. rewrite Hr; cbn [bindE]. now rewrite He. }
    rewrite (run_fails_before_save image t w mdl img e Hm Ht Hi Hb).
    cbn [fst snd status_of]. rewrite new_events_with_run. repeat split.
Qed.

Lemma Forall2_In_right {A B : Type} (R : A -> B -> Prop) (l : list A) (k : list B)
    (y : B) :
  Forall2 R l k -> In y k -> exists x, In x l /\ R x y.
Proof.
  induction 1 as [| a b l k Hab _ IH]; intros Hin; [destruct Hin |].
  destruct Hin as [<- | Hin].
  - exists a. split; [now left | exact Hab].
  - destruct (IH Hin) as (x & Hx & Hr). exists x. split; [now right | exact Hr].
Qed.

(** X13: every key of the summary of a success response is a label of
    the [names] dictionary of one of the results the model returned. *)
Theorem summary_keys_are_model_names (image : list Byte.byte) (t : pyfloat)
    (w w' : World) (r : Response) (l : string) :
  detect_objects image t w = (inr r, w') ->
  l ∈ dom (summary r) ->
  exists mdl img results res class_id,
    model w = Some mdl /\ read_image image = inr img /\ mdl img t = inr results /\
    In res results /\ names res !! class_id = Some l.
Proof.
  intros Hrun Hl.
  pose proof (detect_objects_counted _ _ _ _ _ Hrun) as [Ht _]. cbn [fst snd] in Ht.
  apply detect_objects_returns in Hrun as (mdl & img & results & Hm & _ & Hi & Hr & Hf).
  exists mdl, img, results.
  apply for_results_spec in Hf as (new & Hnew & Hall & _).
  cbn [fst app] in Hnew. subst new.
  apply elem_of_dom in Hl as [n Hn]. rewrite (Ht l) in Hn.
  assert (Hin : l ∈ label <$> detections r).
  { destruct (decide (l ∈ label <$> detections r)) as [H | H]; [exact H |].
    apply count_label_zero in H. rewrite H in Hn. discriminate. }
  apply list_elem_of_fmap in Hin as (d & -> & Hd).
  apply list_elem_of_In in Hd.
  destruct (Forall2_In_right _ _ _ _ Hall Hd) as (b & _ & res & Hres & Hdet).
  unfold detection_of in Hdet. destruct (xyxy b) as [[[? ?] ?] ?].
  destruct Hdet as (class_id & _ & _ & _ & _ & _ & Hname & _).
  exists res, class_id. auto.
Qed.

End Outcomes.

(** ** The startup hook and the life of the application *)

Section Life.

Context `{RT : Runtime}.

Ltac sfields :=
  cbn [model fs OUTPUT_DIR events MODEL_PATH CONFIDENCE_THRESHOLD_DEFAULT fst snd].

Ltac unfold_startup :=
  unfold startup_event, try_except, call_fs, log, call, gets, raise, bind, set_model,
    emit, set_fs;
  cbn [model fs OUTPUT_DIR events MODEL_PATH CONFIDENCE_THRESHOLD_DEFAULT fst snd].

(** X14: when the startup hook returns, the model it loaded from
    MODEL_PATH is the global [model], the output directory was made,
    and the three steps were logged in order. *)
Theorem startup_loads_model (w w' : World) :
  startup_event w = (inr tt, w') ->
  exists m f,
    YOLO_load (MODEL_PATH w) (fs w) = inr m /\
    Path_mkdir (OUTPUT_DIR w) (fs w) = (inr tt, f) /\
    model w' = Some m /\ fs w' = f /\
    new_events w w' =
      [EvLog (InfoLoading (MODEL_PATH w)); EvLog InfoLoaded;
       EvLog (InfoOutputReady (OUTPUT_DIR w))].
Proof.
  unfold_startup.
  destruct (YOLO_load (MODEL_PATH w) (fs w)) as [e | m]; [discriminate |].
  cbn [model fs OUTPUT_DIR events MODEL_PATH CONFIDENCE_THRESHOLD_DEFAULT fst snd].
  destruct (Path_mkdir (OUTPUT_DIR w) (fs w)) as [[e | []] f]; [discriminate |].
  intros [= <-]. exists m, f. unfold new_events; cbn [model fs events].
  repeat split. rewrite <- !app_assoc. apply drop_app_length.
Qed.

(** X15: when the startup hook fails it logs the error and re-raises
    the library's exception.  A model that cannot be loaded leaves
    [model] and the files as they were; but when the model was loaded
    and only the output directory could not be made, [model] stays
    set. *)
Theorem startup_failure (w w' : World) (x : exn) :
  startup_event w = (inl x, w') ->
  exists e,
    x = Raised e /\ last (events w') = Some (EvLog (ErrorLoad (str e))) /\
    ((YOLO_load (MODEL_PATH w) (fs w) = inl e /\ model w' = model w /\ fs w' = fs w) \/
     (exists m f, YOLO_load (MODEL_PATH w) (fs w) = inr m /\
                  Path_mkdir (OUTPUT_DIR w) (fs w) = (inl e, f) /\
                  model w' = Some m /\ fs w' = f)).
Proof.
  unfold_startup.
  destruct (YOLO_load (MODEL_PATH w) (fs w)) as [e | m].
  - intros [= <- <-]. exists e. cbn [model fs events]. split; [reflexivity |].
    split; [now rewrite last_snoc | left; auto].
  - cbn [model fs OUTPUT_DIR events MODEL_PATH CONFIDENCE_THRESHOLD_DEFAULT fst snd].
    destruct (Path_mkdir (OUTPUT_DIR w) (fs w)) as [[e | []] f]; [| discriminate].
    intros [= <- <-]. exists e. cbn [model fs events]. split; [reflexivity |].
    split; [now rewrite last_snoc | right; eauto 6].
Qed.

Lemma startup_event_shape (w : World) :
  exists m f evs,
    snd (startup_event w) =
      MkWorld m (MODEL_PATH w) (OUTPUT_DIR w) (CONFIDENCE_THRESHOLD_DEFAULT w) f
              (events w ++ evs) /\
    (is_Some (model w) -> is_Some m) /\
    (forall p, ~ In (EvSave p) evs).
Proof.
  unfold_startup.
  destruct (YOLO_load (MODEL_PATH w) (fs w)) as [e | m].
  - eexists _, _, _. sfields. rewrite <- !app_assoc. split; [reflexivity |].
    split; [auto |]. intros p [H | [H | []]]; discriminate.
  - sfields.
    destruct (Path_mkdir (OUTPUT_DIR w) (fs w)) as [[e | []] f];
      eexists _, _, _; sfields; rewrite <- !app_assoc;
      (split; [reflexivity |]); (split; [intros _; eauto |]);
      intros p [H | [H | [H | []]]]; discriminate.
Qed.

Lemma outcome_saves (image : list Byte.byte) (t : pyfloat) (w : World)
    (res : exn + Response) (f : FileSystem) (evs : list Event) (p : string) :
  outcome image t w res f evs -> In (EvSave p) evs -> p = output_path w.
Proof.
  destruct 1; cbn [In]; intros Hin;
    repeat match goal with
           | H : _ \/ _ |- _ => destruct H
           | H : False |- _ => destruct H
           | H : EvSave _ = EvSave _ |- _ => injection H as <-
           | H : _ = EvSave _ |- _ => discriminate H
           end; reflexivity.
Qed.

(** What the handlers keep, over the life of the application. *)
Lemma serves_invariants (w w' : World) :
  serves w w' ->
  MODEL_PATH w' = MODEL_PATH w /\ OUTPUT_DIR w' = OUTPUT_DIR w /\
  (is_Some (model w) -> is_Some (model w')) /\
  exists evs, events w' = events w ++ evs /\
              forall p, In (EvSave p) evs -> p = output_path w.
Proof.
  induction 1 as [w | w w1 w2 res _ IH Hrun | w w1 w2 res _ IH Hrun
                 | w w1 w2 form res _ IH Hrun].
  - repeat split; auto. exists []. rewrite app_nil_r. split; [reflexivity | intros p []].
  - destruct IH as (Hmp & Hod & Hmod & evs & Hev & Hsave).
    destruct (startup_event_shape w1) as (m & f & evs1 & Hw & Hm & Hns).
    rewrite Hrun in Hw. cbn [snd] in Hw. subst w2. cbn [MODEL_PATH OUTPUT_DIR model events].
    repeat split; auto. exists (evs ++ evs1). rewrite Hev, <- app_assoc.
    split; [reflexivity |]. intros p Hin. apply in_app_or in Hin as [Hin | Hin]; [auto |].
    destruct (Hns p Hin).
  - injection Hrun as _ <-. exact IH.
  - destruct IH as (Hmp & Hod & Hmod & evs & Hev & Hsave).
    unfold post_detect, bind, gets in Hrun.
    destruct (detect_objects_outcome (image form)
                (default (CONFIDENCE_THRESHOLD_DEFAULT w1) (confidence_threshold form)) w1)
      as (f & evs1 & Ho & Hw).
    rewrite Hrun in Hw, Ho. cbn [fst snd] in Hw, Ho. subst w2.
    unfold with_run; cbn [MODEL_PATH OUTPUT_DIR model events].
    repeat split; auto. exists (evs ++ evs1). rewrite Hev, <- app_assoc.
    split; [reflexivity |]. intros p Hin. apply in_app_or in Hin as [Hin | Hin]; [auto |].
    rewrite (outcome_saves _ _ _ _ _ _ p Ho Hin). unfold output_path. now rewrite Hod.
Qed.

(** X16: once loaded, the model stays loaded whatever handlers run, so
    no later detection request is answered with 503. *)
Theorem model_stays_loaded (w w' : World) (form : DetectForm) :
  serves w w' -> is_Some (model w) ->
  is_Some (model w') /\ status_of (fst (post_detect form w')) <> Some 503.
Proof.
  intros Hs Hm. destruct (serves_invariants w w' Hs) as (_ & _ & Hmod & _).
  specialize (Hmod Hm). split; [exact Hmod |].
  unfold post_detect, bind, gets.
  destruct (detect_objects_outcome (image form)
              (default (CONFIDENCE_THRESHOLD_DEFAULT w') (confidence_threshold form)) w')
    as (f & evs & Ho & _).
  destruct Hmod as [m Hm']. destruct Ho; cbn [status_of]; congruence.
Qed.

(** X17: over the life of the application every call of [save] writes
    the same path, [OUTPUT_DIR/last_annotated.jpg] with the OUTPUT_DIR
    read at import: each annotated image overwrites the last. *)
Theorem artifact_path_is_fixed (w w' : World) (p : string) :
  serves w w' -> In (EvSave p) (new_events w w') -> p = output_path w.
Proof.
  intros Hs. destruct (serves_invariants w w' Hs) as (_ & _ & _ & evs & Hev & Hsave).
  unfold new_events. rewrite Hev, drop_app_length. apply Hsave.
Qed.

(** X18: the handlers never rewrite the past or the configuration: the
    events of a world reached later extend the earlier ones, and
    MODEL_PATH and OUTPUT_DIR are those read at import. *)
Theorem history_and_configuration_kept (w w' : World) :
  serves w w' ->
  events w `prefix_of` events w' /\
  MODEL_PATH w' = MODEL_PATH w /\ OUTPUT_DIR w' = OUTPUT_DIR w.
Proof.
  intros Hs. destruct (serves_invariants w w' Hs) as (Hmp & Hod & _ & evs & Hev & _).
  split; [now exists evs | auto].
Qed.

(** X19: the module can be imported exactly when [float] reads the
    configured default threshold; the world it leaves has no model, so
    until the startup hook has run every detection request is answered
    with 503 and changes nothing. *)
Theorem import_then_unavailable (environ : gmap string string) (f : FileSystem) :
  (forall e, import_main environ f = inl e <->
             py_float (os_getenv environ "CONFIDENCE_THRESHOLD_DEFAULT" "0.25") = inl e) /\
  (forall w form,
     import_main environ f = inr w ->
     model w = None /\ events w = [] /\
     post_detect form w = (inl (HTTPException 503 "Model not loaded"), w)).
Proof.
  unfold import_main.
  destruct (py_float (os_getenv environ "CONFIDENCE_THRESHOLD_DEFAULT" "0.25"))
    as [e0 | d]; cbn [bindE]; split.
  - intros e. split; congruence.
  - intros w form H. discriminate H.
  - intros e. split; discriminate.
  - intros w form [= <-]. repeat split.
Qed.

End Life.

(** ** The URLs of the dashboard *)

Section Urls.

Lemma append_cons (c : ascii) (a b : string) :
  (String c a ++ b)%string = String c (a ++ b)%string.
Proof. reflexivity. Qed.

Lemma append_nil (b : string) : (EmptyString ++ b)%string = b.
Proof. reflexivity. Qed.

Lemma prefix_app (old s : string) :
  String.prefix old s = true <-> exists post, s = (old ++ post)%string.
Proof.
  revert s. induction old as [| a old IH]; intros s.
  - split; [intros _; now exists s | intros _; destruct s; reflexivity].
  - destruct s as [| b s]; cbn [String.prefix];
      [split; [discriminate | intros [post H]; discriminate] |].
    destruct (ascii_dec a b) as [-> | N].
    + rewrite IH. split; intros [post H]; exists post; rewrite append_cons in *;
        congruence.
    + split; [discriminate | intros [post H]; rewrite append_cons in H; congruence].
Qed.

Lemma replace_go_skip (old new : string) (k : nat) (s : string) :
  replace_go old new k s = replace_go old new O (str_drop k s).
Proof.
  revert s. induction k as [| k IH]; intros s; [destruct s; reflexivity |].
  destruct s as [| c s]; [reflexivity |]. cbn [replace_go str_drop]. apply IH.
Qed.

(** The first occurrence is rewritten, and the rest of the string
    after it is treated the same way. *)
Lemma replace_go_first (old new : string) (s : string) (n : nat) :
  old <> EmptyString -> str_find old s = Some n ->
  replace_go old new O s =
  (str_take n s ++ new ++
   replace_go old new O (str_drop (n + String.length old) s))%string.
Proof.
  intros Hold. revert n. induction s as [| c s IH]; intros n.
  - cbn [str_find]. destruct old; [contradiction | discriminate].
  - cbn [str_find replace_go]. destruct (String.prefix old (String c s)) eqn:Hp.
    + intros [= <-]. cbn [str_take Nat.add]. rewrite append_nil.
      rewrite replace_go_skip. do 2 f_equal.
      destruct old as [| a old]; [contradiction |].
      cbn [String.length str_drop Nat.sub]. now rewrite Nat.sub_0_r.
    + destruct (str_find old s) as [m |] eqn:Hf; [| discriminate].
      intros [= <-]. cbn [str_take Nat.add str_drop]. rewrite append_cons.
      f_equal. now apply IH.
Qed.

Lemma replace_go_none (old new : string) (s : string) :
  str_find old s = None -> replace_go old new O s = s.
Proof.
  induction s as [| c s IH]; [reflexivity |].
  cbn [str_find replace_go]. destruct (String.prefix old (String c s)); [discriminate |].
  destruct (str_find old s); [discriminate |]. intros _. f_equal. now apply IH.
Qed.

Lemma str_drop_all (s : string) : str_drop (String.length s) s = EmptyString.
Proof. induction s as [| c s IH]; [reflexivity | exact IH]. Qed.

(** X20: when the configured API_URL ends with its only "/detect", the
    health URL is the same URL with "/health" in its place. *)
Theorem health_url_of_detect_url (environ : gmap string string) (u : string) (n : nat) :
  environ !! "API_URL" = Some u ->
  str_find "/detect" u = Some n -> (n + 7)%nat = String.length u ->
  API_URL environ = u /\
  API_HEALTH_URL environ = (str_take n u ++ "/health")%string.
Proof.
  intros He Hf Hn. unfold API_URL, API_HEALTH_URL, os_getenv, str_replace.
  rewrite He. change (default "http://api:8000/detect" (Some u)) with u.
  change (default "http://api:8000" (Some u)) with u.
  change (String.eqb "/detect" "") with false. cbv iota. split; [reflexivity |].
  rewrite (replace_go_first "/detect" "/health" u n) by (discriminate || exact Hf).
  change (String.length "/detect") with 7%nat. rewrite Hn, str_drop_all. reflexivity.
Qed.

(** X21: when "/detect" does not occur in the URL the health probe is
    sent to that URL unchanged; this is the case when API_URL is unset,
    where requests go to http://api:8000/detect and the health probe to
    http://api:8000, the root of the API and not its /health. *)
Theorem health_url_without_detect (environ : gmap string string) :
  (str_find "/detect" (os_getenv environ "API_URL" "http://api:8000") = None ->
   API_HEALTH_URL environ = os_getenv environ "API_URL" "http://api:8000") /\
  (environ !! "API_URL" = None ->
   API_URL environ = "http://api:8000/detect" /\
   API_HEALTH_URL environ = "http://api:8000").
Proof.
  unfold API_URL, API_HEALTH_URL, str_replace.
  change (String.eqb "/detect" "") with false. cbv iota. split.
  - apply replace_go_none.
  - unfold os_getenv. intros ->. split; reflexivity.
Qed.

End Urls.

(** ** The further properties at work on the instances *)

Lemma ran_pair {A W : Type} (x : (exn + A) * W) (a : exn + A) :
  fst x = a -> x = (a, snd x).
Proof. destruct x as [res w]; cbn [fst snd]. now intros ->. Qed.

Example str_replace_examples :
  str_replace "a/detect/detectb" "/detect" "/health" = "a/health/healthb" /\
  str_replace "aaa" "aa" "b" = "ba" /\
  str_replace "ab" "" "-" = "-a-b-" /\
  str_replace "http://api:8000" "/detect" "/health" = "http://api:8000".
Proof. repeat split; reflexivity. Qed.

Lemma bad_request_iff_witness :
  let w := Demo.world (Some Demo.detector) true in
  model w = Some Demo.detector /\
  (status_of (fst (@detect_objects Demo.rt [] f_0_5 w)) = Some 400 <->
   threshold_in_range f_0_5 = false \/ exists e, @read_image Demo.rt [] = inl e).
Proof.
  intros w. split; [reflexivity |].
  apply (@bad_request_iff Demo.rt [] f_0_5 w Demo.detector). reflexivity.
Defined.

Lemma threshold_refused_exactly_witness :
  let w := Demo.world (Some Demo.detector) true in
  model w = Some Demo.detector /\
  (fst (@detect_objects Demo.rt Demo.png f_2_0 w) =
     inl (HTTPException 400 "confidence_threshold must be between 0.0 and 1.0") <->
   ~ (not_nan (sf f_2_0) = true /\ 0 <= scaled (sf f_2_0) <= 2 ^ 1074)).
Proof.
  intros w. split; [reflexivity |].
  apply (@threshold_refused_exactly Demo.rt Demo.png f_2_0 w Demo.detector). reflexivity.
Defined.

Lemma undecodable_image_rejected_witness :
  let w := Demo.world (Some Demo.detector) true in
  @read_image Demo.rt [] = inl (PyExc "UnidentifiedImageError" "cannot identify image file") /\
  @detect_objects Demo.rt [] f_0_5 w =
  (inl (HTTPException 400
          ("Invalid image file: " ++
           str (PyExc "UnidentifiedImageError" "cannot identify image file"))), w).
Proof.
  intros w. split; [reflexivity |].
  apply (@undecodable_image_rejected Demo.rt [] f_0_5 w Demo.detector); reflexivity.
Defined.


Lemma file_system_changes_only_through_save_witness :
  let w := Demo.world (Some Cases.empty_model) true in
  let w' := snd (@detect_objects Demo.rt Demo.png f_0_5 w) in
  List.filter is_save (new_events w w') = [] /\ fs w' = fs w.
Proof.
  assert (H : List.filter is_save
                (new_events (Demo.world (Some Cases.empty_model) true)
                   (snd (@detect_objects Demo.rt Demo.png f_0_5
                           (Demo.world (Some Cases.empty_model) true)))) = [])
    by reflexivity.
  split; [exact H |].
  exact (@file_system_changes_only_through_save Demo.rt Demo.png f_0_5
           (Demo.world (Some Cases.empty_model) true) H).
Defined.

Lemma failure_before_save_witness :
  let w := Demo.world (Some Cases.empty_model) true in
  let run := @detect_objects Demo.rt Demo.png f_0_5 w in
  @before_save Demo.rt Cases.empty_model Demo.decoded f_0_5 =
    inl (PyExc "IndexError" "list index out of range") /\
  fst run =
    inl (HTTPException 500
           ("Detection failed: " ++ str (PyExc "IndexError" "list index out of range"))) /\
  fs (snd run) = fs w /\
  List.filter is_infer (new_events w (snd run)) = [@EvInfer Demo.rt Demo.decoded f_0_5] /\
  List.filter is_save (new_events w (snd run)) = [] /\
  last (events (snd run)) =
    Some (EvLog (ErrorDuringDetection (str (PyExc "IndexError" "list index out of range")))).
Proof.
  intros w run. split; [reflexivity |].
  apply (@failure_before_save Demo.rt Demo.png f_0_5 w Cases.empty_model Demo.decoded);
    reflexivity.
Defined.

Lemma empty_results_list_fails_witness :
  let w := Demo.world (Some Cases.empty_model) true in
  let run := @detect_objects Demo.rt Demo.png f_0_5 w in
  Cases.empty_model Demo.decoded f_0_5 = inr [] /\
  fst run = inl (HTTPException 500 "Detection failed: list index out of range") /\
  fs (snd run) = fs w /\ List.filter is_save (new_events w (snd run)) = [].
Proof.
  intros w run. split; [reflexivity |].
  apply (@empty_results_list_fails Demo.rt Demo.png f_0_5 w Cases.empty_model
           Demo.decoded); reflexivity.
Defined.

Lemma no_objects_detected_succeeds_witness :
  let w := Demo.world (Some Cases.blank_model) true in
  let f := snd (@Image_save Demo.rt Demo.decoded (output_path w) (fs w)) in
  Cases.blank_model Demo.decoded f_0_5 = inr [Cases.blank_result] /\
  @detect_objects Demo.rt Demo.png f_0_5 w =
  (inr (MkResponse [] ∅),
   with_run w f [EvLog (InfoRunning f_0_5); @EvInfer Demo.rt Demo.decoded f_0_5;
                 EvSave (output_path w); EvLog (InfoSaved (output_path w));
                 EvLog (InfoComplete 0)]).
Proof.
  intros w f. split; [reflexivity |].
  apply (@no_objects_detected_succeeds Demo.rt Demo.png f_0_5 w Cases.blank_model
           Demo.decoded Demo.decoded Cases.blank_result [] Demo.decoded f);
    try reflexivity.
  repeat constructor.
Defined.

Lemma unprocessable_box_fails_request_witness :
  let w := Demo.world (Some Cases.odd_model) true in
  let run := @detect_objects Demo.rt Demo.png f_0_5 w in
  fst run = inl (HTTPException 500 "Detection failed: 1") /\
  exists results,
    Cases.odd_model Demo.decoded f_0_5 = inr results /\
    ((exists e, @for_results Demo.rt results ([], ∅) = inl e) <->
     ~ Forall (fun r => Forall (@box_processable Demo.rt r) (boxes r)) results) /\
    (~ Forall (fun r => Forall (@box_processable Demo.rt r) (boxes r)) results ->
     status_of (fst run) = Some 500 /\ fs (snd run) = fs w /\
     List.filter is_save (new_events w (snd run)) = []).
Proof.
  intros w run. split; [reflexivity |]. eexists. split; [reflexivity |].
  apply (@unprocessable_box_fails_request Demo.rt Demo.png f_0_5 w Cases.odd_model
           Demo.decoded); reflexivity.
Defined.

Lemma summary_keys_are_model_names_witness :
  fst (Demo.run f_0_5 true) = inr (Demo.response f_0_5) /\
  "person" ∈ dom (summary (Demo.response f_0_5)) /\
  exists mdl img results res class_id,
    model (Demo.world (Some Demo.detector) true) = Some mdl /\
    @read_image Demo.rt Demo.png = inr img /\ mdl img f_0_5 = inr results /\
    In res results /\ names res !! class_id = Some "person".
Proof.
  assert (H : fst (Demo.run f_0_5 true) = inr (Demo.response f_0_5))
    by (vm_compute; reflexivity).
  assert (Hp : "person" ∈ dom (summary (Demo.response f_0_5))).
  { apply elem_of_dom. exists 1%nat. vm_compute; reflexivity. }
  split; [exact H |]. split; [exact Hp |].
  apply (@summary_keys_are_model_names Demo.rt Demo.png f_0_5
           (Demo.world (Some Demo.detector) true) (Demo.after f_0_5)
           (Demo.response f_0_5) "person").
  - exact (returned_pair _ _ H).
  - exact Hp.
Defined.

Lemma startup_loads_model_witness :
  fst (@startup_event Demo.rt (Demo.imported ∅)) = inr tt /\
  exists m f,
    @YOLO_load Demo.rt (MODEL_PATH (Demo.imported ∅)) (fs (Demo.imported ∅)) = inr m /\
    @Path_mkdir Demo.rt (OUTPUT_DIR (Demo.imported ∅)) (fs (Demo.imported ∅)) =
      (inr tt, f) /\
    model (Demo.started ∅) = Some m /\ fs (Demo.started ∅) = f /\
    new_events (Demo.imported ∅) (Demo.started ∅) =
      [EvLog (InfoLoading (MODEL_PATH (Demo.imported ∅))); EvLog InfoLoaded;
       EvLog (InfoOutputReady (OUTPUT_DIR (Demo.imported ∅)))].
Proof.
  assert (H : fst (@startup_event Demo.rt (Demo.imported ∅)) = inr tt) by reflexivity.
  split; [exact H |].
  apply (@startup_loads_model Demo.rt (Demo.imported ∅) (Demo.started ∅)).
  exact (ran_pair _ _ H).
Defined.

Lemma startup_failure_witness :
  let w := Cases.fresh "/models/missing.pt" true in
  let run := @startup_event Cases.rt_failing w in
  fst run = inl (Raised (Cases.missing "/models/missing.pt")) /\
  exists e,
    Raised (Cases.missing "/models/missing.pt") = Raised e /\
    last (events (snd run)) = Some (EvLog (ErrorLoad (str e))) /\
    ((@YOLO_load Cases.rt_failing (MODEL_PATH w) (fs w) = inl e /\
      model (snd run) = model w /\ fs (snd run) = fs w) \/
     (exists m f, @YOLO_load Cases.rt_failing (MODEL_PATH w) (fs w) = inr m /\
                  @Path_mkdir Cases.rt_failing (OUTPUT_DIR w) (fs w) = (inl e, f) /\
                  model (snd run) = Some m /\ fs (snd run) = f)).
Proof.
  intros w run.
  assert (H : fst run = inl (Raised (Cases.missing "/models/missing.pt")))
    by reflexivity.
  split; [exact H |].
  apply (@startup_failure Cases.rt_failing w (snd run)).
  exact (ran_pair _ _ H).
Defined.

(** The model loaded, the directory refused: the hook fails and the
    model stays set. *)
Example startup_directory_refused :
  let run := @startup_event Cases.rt_failing (Cases.fresh "/app/models/yolov8n.pt" false) in
  fst run = inl (Raised (Demo.denied "/app/output")) /\
  model (snd run) = Some (spec_detector Demo.forward).
Proof. split; reflexivity. Qed.

Lemma demo_serves : serves (Demo.started ∅) Cases.served.
Proof.
  apply (serves_detect _ (Demo.started ∅) _ Cases.form
           (fst (@post_detect Demo.rt Cases.form (Demo.started ∅))) (serves_here _)).
  apply surjective_pairing.
Defined.

Lemma model_stays_loaded_witness :
  serves (Demo.started ∅) Cases.served /\ is_Some (model (Demo.started ∅)) /\
  is_Some (model Cases.served) /\
  status_of (fst (@post_detect Demo.rt Cases.form Cases.served)) <> Some 503.
Proof.
  assert (Hm : is_Some (model (Demo.started ∅))) by (eexists; reflexivity).
  split; [exact demo_serves |]. split; [exact Hm |].
  exact (@model_stays_loaded Demo.rt (Demo.started ∅) Cases.served Cases.form
           demo_serves Hm).
Defined.

Lemma artifact_path_is_fixed_witness :
  serves (Demo.started ∅) Cases.served /\
  In (EvSave "/app/output/last_annotated.jpg") (new_events (Demo.started ∅) Cases.served) /\
  "/app/output/last_annotated.jpg" = output_path (Demo.started ∅).
Proof.
  assert (Hin : In (EvSave "/app/output/last_annotated.jpg")
                   (new_events (Demo.started ∅) Cases.served)).
  { right. right. left. reflexivity. }
  split; [exact demo_serves |]. split; [exact Hin |].
  exact (@artifact_path_is_fixed Demo.rt (Demo.started ∅) Cases.served _
           demo_serves Hin).
Defined.

Lemma history_and_configuration_kept_witness :
  serves (Demo.started ∅) Cases.served /\
  events (Demo.started ∅) `prefix_of` events Cases.served /\
  MODEL_PATH Cases.served = MODEL_PATH (Demo.started ∅) /\
  OUTPUT_DIR Cases.served = OUTPUT_DIR (Demo.started ∅).
Proof.
  split; [exact demo_serves |].
  exact (@history_and_configuration_kept Demo.rt (Demo.started ∅) Cases.served
           demo_serves).
Defined.

Lemma health_url_of_detect_url_witness :
  Cases.environ_local !! "API_URL" = Some "http://localhost:8000/detect" /\
  str_find "/detect" "http://localhost:8000/detect" = Some 21%nat /\
  (21 + 7)%nat = String.length "http://localhost:8000/detect" /\
  API_URL Cases.environ_local = "http://localhost:8000/detect" /\
  API_HEALTH_URL Cases.environ_local = "http://localhost:8000/health".
Proof.
  split; [reflexivity |]. split; [reflexivity |]. split; [reflexivity |].
  apply (health_url_of_detect_url Cases.environ_local "http://localhost:8000/detect" 21);
    reflexivity.
Defined.
